(** * Benchmark dashboard generator: a shallow embedding of
      [benches/generate_dashboard.py] and the properties of its
      parsing, comparison and rendering stages.

Data is modelled as the program has it:
- a Python [str] is a list of Unicode code points;
- a Python [float] is an IEEE 754 binary64 number, with the arithmetic
  of the Standard Library's [SpecFloat] (round to nearest, ties to even);
- a Python [dict] is an association list in insertion order;
- the file system, the clock and the plotting backend are an explicit
  [world] value threaded through the stages. *)

From Stdlib Require Import ZArith NArith List Bool Lia String Ascii.
From Stdlib Require Import SpecFloat Sorted Permutation.
Import ListNotations.

Set Implicit Arguments.

(** ** Python strings *)

Module Str.

(** One Unicode code point. *)
Definition char := N.

(** A Python [str]. *)
Definition str := list char.

(** An ASCII literal of the source, as code points. *)
Definition lit (s : string) : str :=
  List.map N_of_ascii (list_ascii_of_string s).

(** The double quote character U+0022. *)
Definition dq : str := [34%N].

(** U+00B5 MICRO SIGN and U+03BC GREEK SMALL LETTER MU. *)
Definition micro_sign : char := 181%N.
Definition greek_mu : char := 956%N.

Definition eqb (a b : str) : bool :=
  if list_eq_dec N.eq_dec a b then true else false.

(** Python compares strings lexicographically by code point. *)
Fixpoint ltb (a b : str) : bool :=
  match a, b with
  | [], [] => false
  | [], _ :: _ => true
  | _ :: _, [] => false
  | x :: a', y :: b' =>
      if N.ltb x y then true
      else if N.eqb x y then ltb a' b' else false
  end.

Definition leb (a b : str) : bool := negb (ltb b a).

Definition is_digit (c : char) : bool := (N.leb 48 c && N.leb c 57)%bool.

Definition is_ascii_alpha (c : char) : bool :=
  ((N.leb 65 c && N.leb c 90) || (N.leb 97 c && N.leb c 122))%bool.

(** [s.startswith(p)] *)
Fixpoint startswith (p s : str) : bool :=
  match p, s with
  | [], _ => true
  | _ :: _, [] => false
  | x :: p', y :: s' => (N.eqb x y && startswith p' s')%bool
  end.

(** [s.endswith(p)] *)
Definition endswith (p s : str) : bool := startswith (List.rev p) (List.rev s).

(** The decimal digits of a natural number, most significant first. *)
Fixpoint of_uint (u : Decimal.uint) : str :=
  match u with
  | Decimal.Nil => []
  | Decimal.D0 u => 48%N :: of_uint u
  | Decimal.D1 u => 49%N :: of_uint u
  | Decimal.D2 u => 50%N :: of_uint u
  | Decimal.D3 u => 51%N :: of_uint u
  | Decimal.D4 u => 52%N :: of_uint u
  | Decimal.D5 u => 53%N :: of_uint u
  | Decimal.D6 u => 54%N :: of_uint u
  | Decimal.D7 u => 55%N :: of_uint u
  | Decimal.D8 u => 56%N :: of_uint u
  | Decimal.D9 u => 57%N :: of_uint u
  end.

Definition of_N (n : N) : str := of_uint (N.to_uint n).

(** The last [d] decimal digits of [n], zero padded on the left. *)
Fixpoint last_digits (d : nat) (n : N) : str :=
  match d with
  | O => []
  | S d' => last_digits d' (n / 10) ++ [(48 + n mod 10)%N]
  end.

End Str.

Import Str.

(** ** Python floats: IEEE 754 binary64 *)

Module Float.

Definition prec : Z := 53.
Definition emax : Z := 1024.

Definition float := spec_float.

Definition zero : float := S754_zero false.
Definition inf : float := S754_infinity false.

(** An integer of the source converted to [float]. *)
Definition of_Z (z : Z) : float := binary_normalize prec emax z 0 false.

(** The [float] nearest to the rational [n / d]. *)
Definition of_ratio (n : N) (d : positive) : float :=
  match n with
  | N0 => zero
  | Npos p => SFdiv prec emax (S754_finite false p 0) (S754_finite false d 0)
  end.

Definition mul : float -> float -> float := SFmul prec emax.
Definition sub : float -> float -> float := SFsub prec emax.
Definition abs : float -> float := SFabs.
Definition ltb : float -> float -> bool := SFltb.
Definition eqb : float -> float -> bool := SFeqb.
Definition leb : float -> float -> bool := SFleb.

Definition is_zero (x : float) : bool :=
  match x with S754_zero _ => true | _ => false end.



(** The sign bit is clear, or the value is NaN. *)
Definition sign_clear (x : float) : bool :=
  match x with
  | S754_zero s | S754_infinity s | S754_finite s _ _ => negb s
  | S754_nan => true
  end.

(** True division [x / y]: Python raises [ZeroDivisionError] ([None])
    when the divisor is zero. *)
Definition div (x y : float) : option float :=
  if is_zero y then None else Some (SFdiv prec emax x y).

(** Division by a non-zero constant of the source. *)
Definition div_const (x : float) (k : Z) : float := SFdiv prec emax x (of_Z k).

(** [n / dnm] rounded to the nearest integer, ties to even. *)
Definition round_half_even (n dnm : Z) : Z :=
  let q := (n / dnm)%Z in
  let r := (n mod dnm)%Z in
  match (2 * r ?= dnm)%Z with
  | Lt => q
  | Gt => (q + 1)%Z
  | Eq => if Z.even q then q else (q + 1)%Z
  end.

(** [m * 2^e * 10^d] rounded to an integer, ties to even. *)
Definition scaled (d : nat) (m : positive) (e : Z) : N :=
  Z.to_N
    match e with
    | Zneg p => round_half_even (Zpos m * 10 ^ Z.of_nat d) (2 ^ Zpos p)
    | _ => (Zpos m * 2 ^ e * 10 ^ Z.of_nat d)%Z
    end.

Definition sign_str (plus s : bool) : str :=
  if s then lit "-" else if plus then lit "+" else [].

(** The digits of the scaled integer [q] with [d] places after the point. *)
Definition fixed_digits (d : nat) (q : N) : str :=
  of_N (q / 10 ^ N.of_nat d) ++
  match d with
  | O => []
  | S _ => lit "." ++ last_digits d q
  end.

(** The format specifications [.df] ([plus = false]) and [+.df]
    ([plus = true]) applied to a float. *)
Definition format_f (plus : bool) (d : nat) (x : float) : str :=
  match x with
  | S754_nan => sign_str plus false ++ lit "nan"
  | S754_infinity s => sign_str plus s ++ lit "inf"
  | S754_zero s => sign_str plus s ++ fixed_digits d 0
  | S754_finite s m e => sign_str plus s ++ fixed_digits d (scaled d m e)
  end.


End Float.

(** ** [format_time] *)

Definition format_time (nanoseconds : Float.float) : str :=
  if Float.ltb nanoseconds (Float.of_Z 1000) then
    Float.format_f false 0 nanoseconds ++ lit " ns"
  else if Float.ltb nanoseconds (Float.of_Z 1000000) then
    Float.format_f false 1 (Float.div_const nanoseconds 1000)
      ++ lit " " ++ [greek_mu] ++ lit "s"
  else if Float.ltb nanoseconds (Float.of_Z 1000000000) then
    Float.format_f false 1 (Float.div_const nanoseconds 1000000) ++ lit " ms"
  else
    Float.format_f false 2 (Float.div_const nanoseconds 1000000000) ++ lit " s".


(** ** [float(s)] on a decimal string *)

Module FloatOfStr.

(** The digits of an unsigned decimal: the integer they spell with the
    point removed, the number of digits after the point, and whether any
    digit was read.  [None] on a second point or on any other character. *)
Fixpoint scan (s : str) (seen_dot : bool) (mant : N) (frac : nat)
    (any : bool) : option (N * nat * bool) :=
  match s with
  | [] => Some (mant, frac, any)
  | c :: s' =>
      if is_digit c then
        scan s' seen_dot (10 * mant + (c - 48))%N
             (if seen_dot then S frac else frac) true
      else if N.eqb c 46 then
        if seen_dot then None else scan s' true mant frac any
      else None
  end.

Definition unsigned (s : str) : option Float.float :=
  match scan s false 0%N O false with
  | Some (mant, frac, true) => Some (Float.of_ratio mant (Z.to_pos (10 ^ Z.of_nat frac)))
  | _ => None
  end.

(** [float(s)]: [None] stands for [ValueError].  The model covers an
    optional sign followed by digits with at most one point, correctly
    rounded, overflowing to infinity.  Surrounding white space, exponents,
    digit separators and the spellings of infinity and NaN are not
    covered: every such string holds a character that the groups
    [[0-9.]+] of the pattern below cannot contain. *)
Definition float_of_str (s : str) : option Float.float :=
  match s with
  | c :: s' =>
      if N.eqb c 45 then option_map SFopp (unsigned s')      (* - *)
      else if N.eqb c 43 then unsigned s'                    (* + *)
      else unsigned s
  | [] => unsigned s
  end.

End FloatOfStr.

(** ** Regular expressions with capture groups, as [re.findall] runs them *)

Module Regex.

Inductive regex :=
| Eps
| Chr (c : char)                 (* a literal character *)
| Plus (p : char -> bool)        (* [class]+, greedy *)
| Opt (p : char -> bool)         (* [class]?, greedy *)
| Cat (r1 r2 : regex)
| Grp (r : regex).               (* ( ... ) *)

Fixpoint seq (rs : list regex) : regex :=
  match rs with
  | [] => Eps
  | r :: rs' => Cat r (seq rs')
  end.

Definition literal (s : str) : regex := seq (List.map Chr s).

Section Matcher.

Variable A : Type.

(** Greedy repetition with backtracking: the longest run of class
    characters is tried first, then each shorter one. *)
Fixpoint plus_match (p : char -> bool) (s : str) (k : str -> option A)
    : option A :=
  match s with
  | [] => None
  | c :: s' =>
      if p c then
        match plus_match p s' k with
        | Some a => Some a
        | None => k s'
        end
      else None
  end.

(** Backtracking matcher in continuation-passing style: [k] receives
    the rest of the input and the groups captured so far by [r]. *)
Fixpoint rmatch (r : regex) (s : str) (k : str -> list str -> option A)
    : option A :=
  match r with
  | Eps => k s []
  | Chr c =>
      match s with
      | x :: s' => if N.eqb x c then k s' [] else None
      | [] => None
      end
  | Plus p => plus_match p s (fun s' => k s' [])
  | Opt p =>
      match s with
      | x :: s' =>
          if p x then
            match k s' [] with
            | Some a => Some a
            | None => k s []
            end
          else k s []
      | [] => k s []
      end
  | Cat r1 r2 =>
      rmatch r1 s (fun s1 g1 => rmatch r2 s1 (fun s2 g2 => k s2 (g1 ++ g2)))
  | Grp r' =>
      rmatch r' s
        (fun s' g => k s' (firstn (List.length s - List.length s') s :: g))
  end.

End Matcher.

(** A match of [r] at the start of [s]: its groups and the rest. *)
Definition match_here (r : regex) (s : str) : option (list str * str) :=
  rmatch r s (fun s' g => Some (g, s')).

(** [re.findall(r, s)] for a pattern with groups that matches no empty
    string: the group tuples of the non-overlapping matches, scanning left
    to right.  [skip] counts the characters still covered by the last
    match. *)
Fixpoint findall_from (r : regex) (s : str) (skip : nat) : list (list str) :=
  match s with
  | [] => []
  | _ :: s' =>
      match skip with
      | S n => findall_from r s' n
      | O =>
          match match_here r s with
          | Some (g, rest) =>
              g :: findall_from r s' (List.length s' - List.length rest)
          | None => findall_from r s' O
          end
      end
  end.

Definition findall (r : regex) (s : str) : list (list str) :=
  findall_from r s O.

(** What a match means: the matched text [w] and the groups [g]. *)
Fixpoint sem (r : regex) (w : str) (g : list str) : Prop :=
  match r with
  | Eps => w = [] /\ g = []
  | Chr c => w = [c] /\ g = []
  | Plus p => w <> [] /\ forallb p w = true /\ g = []
  | Opt p => (w = [] \/ exists c, w = [c] /\ p c = true) /\ g = []
  | Cat r1 r2 =>
      exists w1 w2 g1 g2,
        w = w1 ++ w2 /\ g = g1 ++ g2 /\ sem r1 w1 g1 /\ sem r2 w2 g2
  | Grp r' => exists g', g = w :: g' /\ sem r' w g'
  end.

End Regex.

Import Regex.

(** ** Dictionaries in insertion order *)

Module Dict.

Definition dict (A : Type) := list (str * A).

Section Ops.

Variable A : Type.

Fixpoint get (k : str) (d : dict A) : option A :=
  match d with
  | [] => None
  | (k', v) :: d' => if Str.eqb k k' then Some v else get k d'
  end.

(** [k in d] *)
Definition mem (k : str) (d : dict A) : bool :=
  match get k d with Some _ => true | None => false end.

(** [d[k] = v]: an existing key keeps its position, a new one goes last. *)
Fixpoint set (k : str) (v : A) (d : dict A) : dict A :=
  match d with
  | [] => [(k, v)]
  | (k', v') :: d' =>
      if Str.eqb k k' then (k, v) :: d' else (k', v') :: set k v d'
  end.

Definition keys (d : dict A) : list str := List.map fst d.

(** Insertion into a list sorted by key, after the equal keys. *)
Fixpoint insert (e : str * A) (l : list (str * A)) : list (str * A) :=
  match l with
  | [] => [e]
  | e' :: l' =>
      if Str.ltb (fst e) (fst e') then e :: e' :: l' else e' :: insert e l'
  end.

(** [sorted(d.items())] and [sorted(names)], by key. *)
Definition sorted (l : list (str * A)) : list (str * A) :=
  fold_right insert [] l.

End Ops.

End Dict.

Import Dict.

(** ** The dashboard generator *)

Section Dashboard.

(** The Unicode tables of the [re] module: [\w] and [\s]. *)
Variable is_word : char -> bool.
Variable is_space : char -> bool.

(** [datetime] and [datetime.strptime(name, "%Y%m%d_%H%M%S")];
    [None] stands for [ValueError]. *)
Variable datetime : Type.
Variable strptime : str -> option datetime.

Definition is_num (c : char) : bool := (is_digit c || N.eqb c 46)%bool.

Definition is_mu (c : char) : bool :=
  (N.eqb c micro_sign || N.eqb c greek_mu)%bool.

Definition num_re : regex := Grp (Plus is_num).
Definition unit_re : regex := Grp (Cat (Opt is_mu) (Plus is_ascii_alpha)).

(** The pattern of [parse_benchmark_results]. *)
Definition pattern : regex :=
  seq [ Grp (Plus is_word); Plus is_space; literal (lit "time:");
        Plus is_space; Chr 91%N;
        num_re; Plus is_space; unit_re; Plus is_space;
        num_re; Plus is_space; unit_re; Plus is_space;
        num_re; Plus is_space; unit_re; Chr 93%N ].

(** *** The world the program runs in *)

(** An entry of the results directory: a plain file, or a directory with
    the files it lists.  A file that cannot be opened or decoded reads as
    [None]. *)
Inductive node :=
| NFile
| NDir (files : list (str * option str)).

(** A file of the dashboard directory. *)
Inductive file :=
| Text (content : str)
| Png.

Record world := {
  (** [target/benchmark-results], in the order the system lists it;
      [None] when the path does not exist *)
  results_dir : option (list (str * node));
  (** the files of [target/benchmark-dashboard] by name *)
  output_files : dict file;
  (** whether [os.makedirs(output_dir, exist_ok=True)] succeeds *)
  makedirs_ok : bool;
  (** whether [dashboard.html] can be opened for writing *)
  open_ok : bool;
  (** [datetime.now().strftime("%Y-%m-%d %H:%M:%S")] *)
  clock : str;
  (** the global [MATPLOTLIB_AVAILABLE] *)
  matplotlib_available : bool;
  (** whether plotting and saving the chart of a suite raises nothing *)
  savefig_ok : str -> bool
}.

(** One parsed run: [{'timestamp': dt, 'benchmarks': {...}}]. *)
Record run := {
  timestamp : datetime;
  benchmarks : dict (dict Float.float)
}.

(** *** [parse_benchmark_results] *)

(** [glob.glob(f"{dir}/*")]: the entries whose name does not start with a
    dot, in listing order. *)
Definition glob_star (B : Type) (entries : list (str * B)) : list (str * B) :=
  filter (fun e => negb (startswith (lit ".") (fst e))) entries.

(** [glob.glob(f"{dir}/*.txt")] *)
Definition glob_txt (B : Type) (entries : list (str * B)) : list (str * B) :=
  filter (fun e => endswith (lit ".txt") (fst e)) (glob_star entries).

(** [Path(bench_file).stem] of a name matched by [*.txt]: the name without
    its last four characters. *)
Definition stem (name : str) : str :=
  firstn (List.length name - 4) name.

(** Group [i] of a match tuple. *)
Definition group (i : nat) (m : list str) : str := nth i m [].

(** The unit conversion of the inner loop; [None] is the branch
    [Unknown time unit]. *)
Definition to_nanoseconds (mean_time : Float.float) (unit : str)
    : option Float.float :=
  if Str.eqb unit (lit "ns") then Some mean_time
  else if (Str.eqb unit (lit "us") || Str.eqb unit (micro_sign :: lit "s")
           || Str.eqb unit (greek_mu :: lit "s"))%bool
  then Some (Float.mul mean_time (Float.of_Z 1000))
  else if Str.eqb unit (lit "ms") then
    Some (Float.mul mean_time (Float.of_Z 1000000))
  else if Str.eqb unit (lit "s") then
    Some (Float.mul mean_time (Float.of_Z 1000000000))
  else None.

(** What one iteration of [for match in matches] does. *)
Inductive outcome :=
| Stored (test_name : str) (mean_time : Float.float)
| NegativeTime      (* warning, [continue] *)
| UnknownUnit       (* warning, [continue] *)
| ParseFailed.      (* [ValueError] caught, [continue] *)

Definition measure (m : list str) : outcome :=
  let test_name := group 0 m in
  match FloatOfStr.float_of_str (group 3 m) with
  | None => ParseFailed
  | Some mean_time =>
      let unit := group 4 m in
      if Float.ltb mean_time (Float.of_Z 0) then NegativeTime
      else
        match to_nanoseconds mean_time unit with
        | Some ns => Stored test_name ns
        | None => UnknownUnit
        end
  end.

(** [benchmarks[bench_name][test_name] = mean_time] on a
    [defaultdict(dict)]. *)
Definition store (bench_name test_name : str) (mean_time : Float.float)
    (b : dict (dict Float.float)) : dict (dict Float.float) :=
  let tests := match get bench_name b with Some t => t | None => [] end in
  set bench_name (set test_name mean_time tests) b.

(** The loop [for match in matches]. *)
Fixpoint store_matches (bench_name : str) (matches : list (list str))
    (b : dict (dict Float.float)) : dict (dict Float.float) :=
  match matches with
  | [] => b
  | m :: rest =>
      store_matches bench_name rest
        match measure m with
        | Stored test_name ns => store bench_name test_name ns b
        | _ => b
        end
  end.

(** One iteration of [for bench_file in bench_files]. *)
Definition parse_file (b : dict (dict Float.float)) (f : str * option str)
    : dict (dict Float.float) :=
  let bench_name := stem (fst f) in
  match snd f with
  | None => b                                   (* failed to read *)
  | Some content =>
      if forallb is_space content then b        (* [not content.strip()] *)
      else
        match findall pattern content with
        | [] => b                               (* no matches *)
        | matches => store_matches bench_name matches b
        end
  end.

(** One iteration of [for timestamp_dir in timestamp_dirs]: the run to
    append, or [None] for each [continue] and for an empty run. *)
Definition parse_run (name : str) (n : node) : option run :=
  match n with
  | NFile => None
  | NDir files =>
      match strptime name with
      | None => None
      | Some dt =>
          match glob_txt files with
          | [] => None
          | bench_files =>
              match fold_left parse_file bench_files [] with
              | [] => None
              | b => Some {| timestamp := dt; benchmarks := b |}
              end
          end
      end
  end.

Fixpoint parse_dirs (timestamp_dirs : list (str * node)) : list run :=
  match timestamp_dirs with
  | [] => []
  | (name, n) :: rest =>
      match parse_run name n with
      | Some r => r :: parse_dirs rest
      | None => parse_dirs rest
      end
  end.

(** The directories are sorted by path; all paths share the prefix
    [results_dir/], so this is the order of the names
    (see [ltb_common_prefix]). *)
Definition timestamp_dirs (entries : list (str * node)) : list (str * node) :=
  sorted (glob_star entries).

Definition parse_benchmark_results (root : option (list (str * node)))
    : list run :=
  match root with
  | None => []
  | Some entries => parse_dirs (timestamp_dirs entries)
  end.

(** *** [generate_charts] *)

(** [benchmarks[suite][test].append(time)] on nested default dicts. *)
Definition add_time (suite test : str) (time : Float.float)
    (b : dict (dict (list Float.float))) : dict (dict (list Float.float)) :=
  let tests := match get suite b with Some t => t | None => [] end in
  let times := match get test tests with Some l => l | None => [] end in
  set suite (set test (times ++ [time]) tests) b.

Definition group_by_suite (results : list run)
    : dict (dict (list Float.float)) :=
  fold_left
    (fun b r =>
       fold_left
         (fun b st =>
            fold_left (fun b tt => add_time (fst st) (fst tt) (snd tt) b)
                      (snd st) b)
         (benchmarks r) b)
    results [].

(** [suite in run['benchmarks'] and test_name in run['benchmarks'][suite]] *)
Definition has_test (suite test : str) (r : run) : bool :=
  match get suite (benchmarks r) with
  | Some tests => mem test tests
  | None => false
  end.

Definition has_data (results : list run) (suite : str) (tests : list str)
    : bool :=
  existsb (fun t => existsb (has_test suite t) results) tests.

Definition chart_name (suite : str) : str := suite ++ lit "_performance.png".

Definition set_files (fs : dict file) (w : world) : world :=
  {| results_dir := results_dir w; output_files := fs;
     makedirs_ok := makedirs_ok w; open_ok := open_ok w; clock := clock w;
     matplotlib_available := matplotlib_available w;
     savefig_ok := savefig_ok w |}.

Definition generate_charts (results : list run) (w : world) : world :=
  if negb (matplotlib_available w) then w
  else if negb (makedirs_ok w) then w
  else
    fold_left
      (fun w st =>
         if (has_data results (fst st) (keys (snd st)) && savefig_ok w (fst st))%bool
         then set_files (set (chart_name (fst st)) Png (output_files w)) w
         else w)
      (group_by_suite results) w.

(** *** [generate_html_dashboard] *)

Definition nl : str := [10%N].

(** The lines of a literal, joined by newlines. *)
Fixpoint lines (ls : list str) : str :=
  match ls with
  | [] => []
  | [l] => l
  | l :: ls' => l ++ nl ++ lines ls'
  end.

(** The template [html], up to the time stamp. *)
Definition html_head : str :=
  lines
    [ lit "";
      lit "<!DOCTYPE html>";
      lit "<html>";
      lit "<head>";
      lit "    <title>Script Language Performance Dashboard</title>";
      lit "    <style>";
      lit "        body { font-family: Arial, sans-serif; margin: 20px; }";
      lit "        h1 { color: #333; }";
      lit "        .benchmark-section { margin: 20px 0; }";
      lit "        .chart { margin: 10px 0; }";
      lit "        table { border-collapse: collapse; width: 100%; margin: 20px 0; }";
      lit "        th, td { border: 1px solid #ddd; padding: 8px; text-align: left; }";
      lit "        th { background-color: #f2f2f2; }";
      lit "        .improvement { color: green; }";
      lit "        .regression { color: red; }";
      lit "        .timestamp { font-size: 0.9em; color: #666; }";
      lit "    </style>";
      lit "</head>";
      lit "<body>";
      lit "    <h1>Script Language Performance Dashboard</h1>";
      lit "    <p class=" ++ dq ++ lit "timestamp" ++ dq ++ lit ">Last updated: " ].

(** The template [html], between the time stamp and the charts. *)
Definition html_trends : str :=
  lines
    [ lit "</p>";
      lit "    ";
      lit "    <h2>Performance Trends</h2>";
      lit "    " ].

(** The template [html], between the charts and the latest results. *)
Definition html_latest : str :=
  lines
    [ lit "";
      lit "    ";
      lit "    <h2>Latest Results</h2>";
      lit "    " ].

(** The template [html], between the latest results and the comparisons. *)
Definition html_comparisons : str :=
  lines
    [ lit "";
      lit "    ";
      lit "    <h2>Performance Comparisons</h2>";
      lit "    " ].

(** The template [html], after the comparisons. *)
Definition html_tail : str :=
  lines
    [ lit "";
      lit "</body>";
      lit "</html>";
      lit "" ].

(** [s.capitalize()] on ASCII letters. *)
Definition upper (c : char) : char :=
  if (N.leb 97 c && N.leb c 122)%bool then (c - 32)%N else c.

Definition lower (c : char) : char :=
  if (N.leb 65 c && N.leb c 90)%bool then (c + 32)%N else c.

Definition capitalize (s : str) : str :=
  match s with
  | [] => []
  | c :: s' => upper c :: List.map lower s'
  end.

Definition chart_suites : list str :=
  [ lit "lexer"; lit "parser"; lit "compilation"; lit "features";
    lit "scenarios"; lit "memory"; lit "tooling" ].

Definition chart_div (suite : str) : str :=
  lit "<div class=" ++ dq ++ lit "chart" ++ dq ++ lit "><h3>"
    ++ capitalize suite ++ lit "</h3><img src=" ++ dq ++ suite
    ++ lit "_performance.png" ++ dq ++ lit " width=" ++ dq ++ lit "800" ++ dq
    ++ lit "></div>" ++ nl.

Definition charts_html (fs : dict file) : str :=
  List.concat
    (List.map
       (fun suite => if mem (chart_name suite) fs then chart_div suite else [])
       chart_suites).

(** [results[-1]] and [results[-2]] *)
Definition last_run (results : list run) : option run :=
  nth_error (rev results) 0.

Definition previous_run (results : list run) : option run :=
  nth_error (rev results) 1.

Definition latest_row (suite : str) (tt : str * Float.float) : str :=
  lit "<tr><td>" ++ suite ++ lit "</td><td>" ++ fst tt ++ lit "</td><td>"
    ++ format_time (snd tt) ++ lit "</td></tr>".

(** The latest results table. *)
Definition latest_html (results : list run) : str :=
  match last_run results with
  | Some latest =>
      lit "<table><tr><th>Benchmark</th><th>Test</th><th>Time</th></tr>"
      ++ List.concat
           (List.map
              (fun st => List.concat (List.map (latest_row (fst st)) (sorted (snd st))))
              (sorted (benchmarks latest)))
      ++ lit "</table>"
  | None => lit "<p>No results available</p>"
  end.

(** One row of the comparison: the local variables of the inner loop. *)
Record comparison := {
  c_suite : str;
  c_test : str;
  prev_time : Float.float;
  curr_time : Float.float;
  change : Float.float;
  change_str : str;
  change_class : str
}.

(** The literal [0.1]. *)
Definition epsilon : Float.float := Float.of_ratio 1 10.

Definition infinity_str : str := [43%N; 8734%N; 37%N].   (* +, U+221E, % *)

(** The block under [# Prevent division by zero]; [None] stands for
    [ZeroDivisionError].  In the first branch the source binds [change] to
    the integer [0], modelled as the float zero. *)
Definition compare (suite test : str) (prev curr : Float.float)
    : option comparison :=
  if Float.eqb prev (Float.of_Z 0) then
    Some {| c_suite := suite; c_test := test;
            prev_time := prev; curr_time := curr;
            change := if Float.eqb curr (Float.of_Z 0) then Float.zero
                      else Float.inf;
            change_str := if Float.eqb curr (Float.of_Z 0) then lit "N/A"
                          else infinity_str;
            change_class := [] |}
  else
    match Float.div (Float.sub curr prev) prev with
    | None => None
    | Some q =>
        let chg := Float.mul q (Float.of_Z 100) in
        Some {| c_suite := suite; c_test := test;
                prev_time := prev; curr_time := curr;
                change := chg;
                change_str :=
                  if Float.ltb epsilon (Float.abs chg)
                  then Float.format_f true 1 chg ++ lit "%"
                  else lit "~";
                change_class :=
                  if Float.ltb chg (Float.of_Z 0) then lit "improvement"
                  else if Float.ltb (Float.of_Z 5) chg then lit "regression"
                  else [] |}
    end.

(** A loop whose body appends rows or raises. *)
Fixpoint for_each (A B : Type) (l : list A) (body : A -> option (list B))
    : option (list B) :=
  match l with
  | [] => Some []
  | x :: l' =>
      match body x with
      | None => None
      | Some r =>
          match for_each l' body with
          | None => None
          | Some rs => Some (r ++ rs)
          end
      end
  end.

(** The body of [for test in latest['benchmarks'][suite]]: the rows it
    appends; a subscript on a missing key is [KeyError] ([None]). *)
Definition compare_test (previous : dict (dict Float.float)) (suite : str)
    (ltests : dict Float.float) (test : str) : option (list comparison) :=
  match get suite previous with
  | None => None
  | Some ptests =>
      if negb (mem test ptests) then Some []
      else
        match get test ptests, get test ltests with
        | Some prev, Some curr =>
            match compare suite test prev curr with
            | Some c => Some [c]
            | None => None
            end
        | _, _ => None
        end
  end.

(** The body of [for suite in latest['benchmarks']]. *)
Definition compare_suite (latest previous : dict (dict Float.float))
    (suite : str) : option (list comparison) :=
  if negb (mem suite previous) then Some []
  else
    match get suite latest with
    | None => None
    | Some ltests =>
        for_each (keys ltests) (compare_test previous suite ltests)
    end.

(** The rows of the two nested loops over the latest run. *)
Definition comparison_rows (latest previous : dict (dict Float.float))
    : option (list comparison) :=
  for_each (keys latest) (compare_suite latest previous).

Definition indent (n : nat) : str := repeat 32%N n.

Definition comparison_row (c : comparison) : str :=
  lines
    [ lit "<tr>";
      indent 20 ++ lit "<td>" ++ c_suite c ++ lit "</td>";
      indent 20 ++ lit "<td>" ++ c_test c ++ lit "</td>";
      indent 20 ++ lit "<td>" ++ format_time (prev_time c) ++ lit "</td>";
      indent 20 ++ lit "<td>" ++ format_time (curr_time c) ++ lit "</td>";
      indent 20 ++ lit "<td class=" ++ dq ++ change_class c ++ dq ++ lit ">"
        ++ change_str c ++ lit "</td>";
      indent 16 ++ lit "</tr>" ].

(** The comparison table; [None] when a row raises. *)
Definition comparison_html (results : list run) : option str :=
  match last_run results, previous_run results with
  | Some latest, Some previous =>
      match comparison_rows (benchmarks latest) (benchmarks previous) with
      | Some rows =>
          Some (lit "<table><tr><th>Benchmark</th><th>Test</th><th>Previous</th><th>Latest</th><th>Change</th></tr>"
                ++ List.concat (List.map comparison_row rows) ++ lit "</table>")
      | None => None
      end
  | _, _ => Some (lit "<p>Need at least 2 runs for comparison</p>")
  end.

Definition final_html (w : world) (latest comparisons : str) : str :=
  html_head ++ clock w ++ html_trends ++ charts_html (output_files w)
    ++ html_latest ++ latest ++ html_comparisons ++ comparisons ++ html_tail.

Definition dashboard : str := lit "dashboard.html".

(** [generate_html_dashboard]: the world it leaves, or [None] when an
    exception escapes it. *)
Definition generate_html_dashboard (results : list run) (w : world)
    : option world :=
  if negb (makedirs_ok w) then Some w
  else
    match comparison_html results with
    | None => None
    | Some comparisons =>
        if open_ok w then
          Some (set_files
                  (set dashboard
                       (Text (final_html w (latest_html results) comparisons))
                       (output_files w))
                  w)
        else Some w
    end.

(** *** [main] *)

Inductive status :=
| Exit (code : Z)
| Raised.

Definition main (w : world) : world * status :=
  match parse_benchmark_results (results_dir w) with
  | [] => (w, Exit 1)
  | results =>
      let w1 := if matplotlib_available w then generate_charts results w
                else w in
      match generate_html_dashboard results w1 with
      | None => (w1, Raised)
      | Some w2 =>
          (w2, if mem dashboard (output_files w2) then Exit 0 else Exit 1)
      end
  end.

End Dashboard.

(** ** Instances of the parameters, for examples *)

(** The ASCII part of the tables [\s] and [\w]. *)
Definition ascii_space (c : char) : bool :=
  (N.eqb c 32 || (N.leb 9 c && N.leb c 13))%bool.

Definition ascii_word (c : char) : bool :=
  (is_digit c || is_ascii_alpha c || N.eqb c 95)%bool.

(** A stand-in for [strptime]: a name of fifteen characters with an
    underscore in the ninth place and digits elsewhere is its own time
    stamp. *)
Definition stamp (name : str) : option str :=
  if (Nat.eqb (List.length name) 15
      && forallb is_digit (firstn 8 name)
      && Str.eqb (firstn 1 (skipn 8 name)) (lit "_")
      && forallb is_digit (skipn 9 name))%bool
  then Some name else None.

(** A results directory with two runs and a stray file, listed out of
    order. *)
Definition sample_results : list (str * node) :=
  [ (lit "20240102_000000",
     NDir [ (lit "parser.txt",
             Some (lines [ lit "parse_expr time: [170 us 180 us 190 us]";
                           lit "new_test time: [1 ns 2 ns 3 ns]";
                           lit "bad_unit time: [1 ns 2 xs 3 ns]" ]));
            (lit "lexer.txt",
             Some (lit "tokenize time: [10 ms 12 ms 14 ms]")) ]);
    (lit "notes", NFile);
    (lit "20240101_000000",
     NDir [ (lit "parser.txt",
             Some (lit "parse_expr time: [170 us 200 us 190 us]"));
            (lit "empty.txt", Some (lit "nothing measured here")) ]) ].

Definition sample_world : world :=
  {| results_dir := Some sample_results;
     output_files := [];
     makedirs_ok := true;
     open_ok := true;
     clock := lit "2024-01-03 10:00:00";
     matplotlib_available := false;
     savefig_ok := fun _ => true |}.

(** The same results directory at a later time, with the plotting
    backend and an older dashboard in place. *)
Definition later_world : world :=
  {| results_dir := Some sample_results;
     output_files := [(lit "dashboard.html", Text (lit "old"))];
     makedirs_ok := true;
     open_ok := true;
     clock := lit "2024-02-01 08:30:00";
     matplotlib_available := true;
     savefig_ok := fun _ => true |}.



(** The sample results where the dashboard directory cannot be made. *)
Definition readonly_world : world :=
  {| results_dir := Some sample_results;
     output_files := [];
     makedirs_ok := false;
     open_ok := true;
     clock := lit "2024-02-01 08:30:00";
     matplotlib_available := true;
     savefig_ok := fun _ => true |}.

(** Every suite of a run holds at least one test. *)
Definition suites_nonempty (b : dict (dict Float.float)) : Prop :=
  Forall (fun st => snd st <> []) b.

(** ** Notions used to state further properties *)

(** A unit as the pattern admits it: one optional micro sign, then at
    least one ASCII letter. *)
Definition unit_token (u : str) : Prop :=
  exists mu letters,
    u = mu ++ letters /\
    (mu = [] \/ mu = [micro_sign] \/ mu = [greek_mu]) /\
    letters <> [] /\ forallb is_ascii_alpha letters = true.

(** [benchmarks[suite][test]] when both keys are present. *)
Definition lookup (suite test : str) (b : dict (dict Float.float))
    : option Float.float :=
  match get suite b with
  | Some tests => get test tests
  | None => None
  end.

(** The timing of the last tuple of a list that is stored under a test
    name. *)
Fixpoint last_stored (test : str) (matches : list (list str))
    : option Float.float :=
  match matches with
  | [] => None
  | m :: rest =>
      match last_stored test rest with
      | Some ns => Some ns
      | None =>
          match measure m with
          | Stored t ns => if Str.eqb t test then Some ns else None
          | _ => None
          end
      end
  end.

(** No timing of a run is below zero. *)
Definition timings_not_negative (b : dict (dict Float.float)) : Prop :=
  Forall
    (fun st =>
       Forall (fun tt => Float.ltb (snd tt) (Float.of_Z 0) = false) (snd st))
    b.

(** The number of points in a string. *)
Definition count_points (s : str) : nat := count_occ N.eq_dec s 46%N.

(** ** The rules of the specification, stated on their own *)

(** The qualitative class as a function of the percent change alone:
    improvement below zero, regression above the 5% threshold, neutral
    (the empty class) otherwise. *)
Definition class_of_change (chg : Float.float) : str :=
  if Float.ltb chg (Float.of_Z 0) then lit "improvement"
  else if Float.ltb (Float.of_Z 5) chg then lit "regression"
  else [].

(** * Properties *)

(** ** Strings *)

Module StrFacts.

Lemma eqb_eq a b : Str.eqb a b = true <-> a = b.
Proof.
  unfold Str.eqb. destruct (list_eq_dec N.eq_dec a b); split; congruence.
Qed.

Lemma eqb_refl a : Str.eqb a a = true.
Proof. apply eqb_eq. reflexivity. Qed.

Lemma eqb_neq a b : Str.eqb a b = false <-> a <> b.
Proof.
  unfold Str.eqb. destruct (list_eq_dec N.eq_dec a b); split; congruence.
Qed.

Lemma ltb_irrefl a : Str.ltb a a = false.
Proof.
  induction a as [|x a IH]; simpl; [reflexivity|].
  rewrite N.ltb_irrefl, N.eqb_refl. exact IH.
Qed.

(** A common prefix does not change the order of two strings: sorting
    the paths [results_dir/name] sorts the names. *)
Lemma ltb_common_prefix p a b : Str.ltb (p ++ a) (p ++ b) = Str.ltb a b.
Proof.
  induction p as [|x p IH]; simpl; [reflexivity|].
  rewrite N.ltb_irrefl, N.eqb_refl. exact IH.
Qed.

Lemma ltb_trans a : forall b c,
  Str.ltb a b = true -> Str.ltb b c = true -> Str.ltb a c = true.
Proof.
  induction a as [|x a IH]; intros [|y b] [|z c]; simpl; try congruence.
  destruct (N.ltb_spec x y) as [Hxy|Hxy].
  - intros _. destruct (N.ltb_spec y z) as [Hyz|Hyz].
    + intros _. destruct (N.ltb_spec x z); [reflexivity|lia].
    + destruct (N.eqb_spec y z) as [->|]; [|discriminate].
      intros _. destruct (N.ltb_spec x z); [reflexivity|lia].
  - destruct (N.eqb_spec x y) as [->|]; [|discriminate].
    intros Hab. destruct (N.ltb_spec y z) as [Hyz|Hyz]; [reflexivity|].
    destruct (N.eqb_spec y z) as [->|]; [|discriminate].
    apply IH. exact Hab.
Qed.

(** The order is total: of two different strings one is below the other. *)
Lemma ltb_total a : forall b,
  Str.ltb a b = false -> Str.ltb b a = false -> a = b.
Proof.
  induction a as [|x a IH]; intros [|y b]; simpl; try congruence.
  destruct (N.ltb_spec x y) as [Hxy|Hxy]; [discriminate|].
  destruct (N.ltb_spec y x) as [Hyx|Hyx]; [discriminate|].
  assert (x = y) by lia. subst y. rewrite N.eqb_refl.
  intros H1 H2. f_equal. apply IH; assumption.
Qed.

Lemma ltb_asym a : forall b, Str.ltb a b = true -> Str.ltb b a = false.
Proof.
  intros b H. destruct (Str.ltb b a) eqn:E; [|reflexivity].
  pose proof (ltb_trans _ _ _ H E) as C. rewrite ltb_irrefl in C. discriminate.
Qed.

Lemma leb_trans a b c :
  Str.leb a b = true -> Str.leb b c = true -> Str.leb a c = true.
Proof.
  unfold Str.leb. rewrite !negb_true_iff. intros Hba Hcb.
  destruct (Str.ltb c a) eqn:Hca; [|reflexivity].
  destruct (Str.ltb a b) eqn:Hab.
  - pose proof (ltb_trans _ _ _ Hca Hab). congruence.
  - assert (a = b) by (apply ltb_total; assumption). subst. congruence.
Qed.






End StrFacts.

(** ** Floats *)

Module FloatFacts.

Import Float.

Lemma round_sign_clear m e l :
  sign_clear (binary_round_aux prec emax false m e l) = true.
Proof.
  unfold binary_round_aux.
  destruct (shr_fexp prec emax m e l) as [mrs e1].
  destruct (shr_fexp prec emax _ e1 loc_Exact) as [mrs2 e2].
  destruct (shr_m mrs2); [reflexivity| |reflexivity].
  destruct (e2 <=? emax - prec)%Z; reflexivity.
Qed.

Lemma of_ratio_sign_clear n d : sign_clear (of_ratio n d) = true.
Proof.
  destruct n as [|p]; [reflexivity|].
  unfold of_ratio, SFdiv.
  destruct (SFdiv_core_binary prec emax (Z.pos p) 0 (Z.pos d) 0) as [[mz ez] lz].
  apply round_sign_clear.
Qed.

(** A float whose sign bit is clear is not below zero. *)
Lemma sign_clear_not_negative x :
  sign_clear x = true -> ltb x (of_Z 0) = false.
Proof.
  destruct x as [[|]|[|]| |[|] m e]; simpl; intros H;
    try discriminate; reflexivity.
Qed.











End FloatFacts.

(** ** The matcher *)

Module RegexFacts.

Ltac break :=
  repeat match goal with
         | H : exists _, _ |- _ => destruct H
         | H : _ /\ _ |- _ => destruct H
         end.

Lemma plus_match_sound (A : Type) p s : forall (k : str -> option A) a,
  plus_match p s k = Some a ->
  exists w s', s = w ++ s' /\ w <> [] /\ forallb p w = true /\ k s' = Some a.
Proof.
  induction s as [|c s IH]; intros k a; simpl; [discriminate|].
  destruct (p c) eqn:Hc; [|discriminate].
  destruct (plus_match p s k) as [a'|] eqn:Hrec.
  - intros E. injection E as ->.
    apply IH in Hrec as (w & s' & -> & _ & Hw & Hk).
    exists (c :: w), s'. simpl. rewrite Hc, Hw. repeat split; congruence.
  - intros Hk. exists [c], s. simpl. rewrite Hc. repeat split; congruence.
Qed.

Lemma firstn_prefix (w s' : str) :
  firstn (List.length (w ++ s') - List.length s') (w ++ s') = w.
Proof.
  rewrite length_app, Nat.add_sub, firstn_app, Nat.sub_diag, firstn_all.
  simpl. apply app_nil_r.
Qed.

(** Whatever the matcher hands to its continuation is a match of the
    expression: a prefix of the input with its groups. *)
Lemma rmatch_sound (A : Type) r : forall s (k : str -> list str -> option A) a,
  rmatch r s k = Some a ->
  exists w s' g, s = w ++ s' /\ sem r w g /\ k s' g = Some a.
Proof.
  induction r as [|c|p|p|r1 IH1 r2 IH2|r IH]; intros s k a; simpl.
  - intros H. exists [], s, []. auto.
  - destruct s as [|x s]; [discriminate|].
    destruct (N.eqb_spec x c) as [->|]; [|discriminate].
    intros H. exists [c], s, []. auto.
  - intros H. apply plus_match_sound in H as (w & s' & -> & Hne & Hw & Hk).
    exists w, s', []. auto.
  - destruct s as [|x s].
    + intros H. exists [], [], []. auto.
    + destruct (p x) eqn:Hx.
      * destruct (k s []) as [a'|] eqn:Hk.
        -- intros E. injection E as ->. exists [x], s, [].
           repeat split; eauto.
        -- intros H. exists [], (x :: s), []. auto.
      * intros H. exists [], (x :: s), []. auto.
  - intros H. apply IH1 in H as (w1 & s1 & g1 & -> & H1 & H).
    apply IH2 in H as (w2 & s2 & g2 & -> & H2 & H).
    exists (w1 ++ w2), s2, (g1 ++ g2). rewrite app_assoc.
    repeat split; [|exact H]. exists w1, w2, g1, g2. auto.
  - intros H. apply IH in H as (w & s' & g & -> & Hr & H).
    rewrite firstn_prefix in H. exists w, s', (w :: g).
    repeat split; [|exact H]. exists g. auto.
Qed.

Lemma match_here_sound r s g rest :
  match_here r s = Some (g, rest) -> exists w, s = w ++ rest /\ sem r w g.
Proof.
  unfold match_here. intros H.
  apply rmatch_sound in H as (w & s' & g' & -> & Hr & E).
  injection E as -> ->. exists w. auto.
Qed.

(** Every tuple of [findall] is the groups of a match. *)
Lemma findall_from_sound r s : forall skip m,
  In m (findall_from r s skip) -> exists w, sem r w m.
Proof.
  induction s as [|c s IH]; intros skip m; simpl; [tauto|].
  destruct skip as [|n]; [|apply IH].
  destruct (match_here r (c :: s)) as [[g rest]|] eqn:Hm.
  - intros [<-|Hin].
    + apply match_here_sound in Hm as (w & _ & Hw). eauto.
    + eapply IH, Hin.
  - apply IH.
Qed.

Lemma findall_sound r s m : In m (findall r s) -> exists w, sem r w m.
Proof. apply findall_from_sound. Qed.

End RegexFacts.

(** ** Dictionaries *)

Module DictFacts.

Section Facts.

Variable A : Type.

Implicit Types (d : dict A) (k : str) (v : A).

Lemma get_set_same k v d : get k (set k v d) = Some v.
Proof.
  induction d as [|[k' v'] d IH]; simpl.
  - rewrite StrFacts.eqb_refl. reflexivity.
  - destruct (Str.eqb k k') eqn:E; simpl.
    + rewrite StrFacts.eqb_refl. reflexivity.
    + rewrite E. exact IH.
Qed.

Lemma get_set_other k k' v d : k' <> k -> get k' (set k v d) = get k' d.
Proof.
  intros Hne. induction d as [|[k0 v0] d IH]; simpl.
  - apply StrFacts.eqb_neq in Hne. rewrite Hne. reflexivity.
  - destruct (Str.eqb k k0) eqn:E; simpl.
    + apply StrFacts.eqb_eq in E. subst k0.
      apply StrFacts.eqb_neq in Hne. rewrite Hne. reflexivity.
    + rewrite IH. reflexivity.
Qed.

Lemma set_not_empty k v d : set k v d <> [].
Proof.
  destruct d as [|[k' v'] d]; simpl; [discriminate|].
  destruct (Str.eqb k k'); discriminate.
Qed.

(** Assignment keeps a property that the old and the new values have. *)
Lemma set_Forall (P : str * A -> Prop) k v d :
  P (k, v) -> Forall P d -> Forall P (set k v d).
Proof.
  intros Hv. induction 1 as [|[k' v'] d Hx Hd IH]; simpl.
  - auto.
  - destruct (Str.eqb k k'); auto.
Qed.

Lemma mem_keys k d : mem k d = true <-> In k (keys d).
Proof.
  unfold mem. induction d as [|[k' v'] d IH]; simpl.
  - split; [discriminate|tauto].
  - destruct (Str.eqb k k') eqn:E.
    + apply StrFacts.eqb_eq in E. subst. split; auto.
    + apply StrFacts.eqb_neq in E. rewrite IH. split; [auto|].
      intros [H|H]; [congruence|exact H].
Qed.

Lemma mem_get k d : mem k d = true <-> exists v, get k d = Some v.
Proof.
  unfold mem. destruct (get k d) as [v|]; split; eauto; try discriminate.
  intros [v H]. discriminate.
Qed.

Lemma keys_get k d : In k (keys d) -> exists v, get k d = Some v.
Proof. intros H. apply mem_get, mem_keys, H. Qed.

Definition key_le (a b : str * A) : Prop := Str.leb (fst a) (fst b) = true.

Lemma insert_In (e x : str * A) (l : list (str * A)) :
  In x (insert e l) <-> x = e \/ In x l.
Proof.
  induction l as [|e' l IH]; simpl.
  - intuition auto.
  - destruct (Str.ltb (fst e) (fst e')); simpl; [intuition auto|].
    rewrite IH. intuition auto.
Qed.

Lemma sorted_In (x : str * A) (l : list (str * A)) :
  In x (sorted l) <-> In x l.
Proof.
  unfold sorted. induction l as [|e l IH]; simpl; [tauto|].
  rewrite insert_In, IH. intuition auto.
Qed.

Lemma insert_sorted (e : str * A) (l : list (str * A)) :
  StronglySorted key_le l -> StronglySorted key_le (insert e l).
Proof.
  induction 1 as [|e' l Hs IH Hall]; simpl.
  - repeat constructor.
  - destruct (Str.ltb (fst e) (fst e')) eqn:E.
    + constructor; [constructor; assumption|].
      assert (Hle : key_le e e').
      { unfold key_le, Str.leb. rewrite (StrFacts.ltb_asym _ _ E). reflexivity. }
      constructor; [exact Hle|].
      eapply Forall_impl; [|exact Hall].
      intros x Hx. unfold key_le in *. eapply StrFacts.leb_trans; eassumption.
    + constructor; [exact IH|].
      apply Forall_forall. intros x Hx. apply insert_In in Hx as [->|Hx].
      * unfold key_le, Str.leb. rewrite E. reflexivity.
      * rewrite Forall_forall in Hall. auto.
Qed.

(** [sorted] returns its argument in ascending order of the keys. *)
Lemma sorted_sorted (l : list (str * A)) : StronglySorted key_le (sorted l).
Proof.
  unfold sorted. induction l as [|e l IH]; simpl.
  - constructor.
  - apply insert_sorted, IH.
Qed.

End Facts.

End DictFacts.

(** ** Formatting of magnitudes *)



(** ** The comparison of one pair *)

Lemma eqb_zero_is_zero p : Float.eqb p (Float.of_Z 0) = Float.is_zero p.
Proof. destruct p as [[|]|[|]| |[|] m e]; reflexivity. Qed.

(** The division of [compare] is guarded: it never sees a zero divisor. *)
Lemma compare_total suite test p c :
  exists r, compare suite test p c = Some r.
Proof.
  unfold compare, Float.div. rewrite eqb_zero_is_zero.
  destruct (Float.is_zero p); eauto.
Qed.

Lemma compare_nonzero suite test p c r :
  Float.eqb p (Float.of_Z 0) = false ->
  compare suite test p c = Some r ->
  exists q,
    Float.div (Float.sub c p) p = Some q /\
    change r = Float.mul q (Float.of_Z 100) /\
    change_str r =
      (if Float.ltb epsilon (Float.abs (change r))
       then Float.format_f true 1 (change r) ++ lit "%" else lit "~") /\
    change_class r = class_of_change (change r).
Proof.
  intros Hp. unfold compare. rewrite Hp.
  destruct (Float.div (Float.sub c p) p) as [q|]; [|discriminate].
  intros E. injection E as <-. exists q. simpl. auto.
Qed.



(** C4, as stated, fails: the class is not a function of the percent
    change.  With previous value 0 and latest value 100 the change is
    infinite, above the threshold, and the class is neutral. *)
Lemma class_of_change_counterexample :
  ~ (forall suite test p c r,
       compare suite test p c = Some r ->
       change_class r = class_of_change (change r)).
Proof.
  intros H.
  specialize (H [] [] (Float.of_Z 0) (Float.of_Z 100) _ eq_refl).
  vm_compute in H. discriminate.
Qed.

(** C4, amended: for a row whose previous value is not zero the class is
    determined by the percent change alone (improvement below zero,
    regression above 5, neutral otherwise); for a row whose previous value
    is zero the class is neutral whatever the change. *)
Theorem class_follows_change suite test (p c : Float.float) r :
  compare suite test p c = Some r ->
  (Float.eqb p (Float.of_Z 0) = false ->
     (Float.ltb (change r) (Float.of_Z 0) = true ->
        change_class r = lit "improvement") /\
     (Float.ltb (change r) (Float.of_Z 0) = false ->
      Float.ltb (Float.of_Z 5) (change r) = true ->
        change_class r = lit "regression") /\
     (Float.ltb (change r) (Float.of_Z 0) = false ->
      Float.ltb (Float.of_Z 5) (change r) = false ->
        change_class r = []))
  /\ (Float.eqb p (Float.of_Z 0) = true -> change_class r = []).
Proof.
  intros Hr. split.
  - intros Hp. destruct (compare_nonzero _ _ _ _ Hp Hr) as (q & _ & _ & _ & Hc).
    rewrite Hc. unfold class_of_change.
    repeat split; intros; repeat match goal with
                                 | H : Float.ltb _ _ = _ |- _ => rewrite H; clear H
                                 end; reflexivity.
  - intros Hp. revert Hr. unfold compare. rewrite Hp.
    intros E. injection E as <-. reflexivity.
Qed.

Lemma class_follows_change_witness :
  exists r,
    compare (lit "parser") (lit "parse_expr")
            (Float.of_Z 200000) (Float.of_Z 180000) = Some r /\
    change_class r = lit "improvement".
Proof.
  eexists. split; [reflexivity|].
  apply (proj1 (proj1 (@class_follows_change (lit "parser") (lit "parse_expr")
                         (Float.of_Z 200000) (Float.of_Z 180000) _ eq_refl)
                      eq_refl)).
  reflexivity.
Defined.



(** ** The parser *)

Section ParserFacts.

Variable is_word : char -> bool.
Variable is_space : char -> bool.

Local Abbreviation pat := (pattern is_word is_space).

(** A match of the pattern has seven groups, and the magnitude groups
    are non-empty strings of digits and points. *)
Lemma pattern_groups w m :
  sem pat w m ->
  exists g0 g1 g2 g3 g4 g5 g6,
    m = [g0; g1; g2; g3; g4; g5; g6] /\
    g3 <> [] /\ forallb is_num g3 = true.
Proof.
  unfold pattern, num_re, unit_re, literal. simpl. intros H.
  RegexFacts.break. subst. simpl.
  do 7 eexists. split; [reflexivity|]. split; assumption.
Qed.

Lemma findall_groups content m :
  In m (findall pat content) ->
  group 3 m <> [] /\ forallb is_num (group 3 m) = true.
Proof.
  intros H. apply RegexFacts.findall_sound in H as [w Hw].
  apply pattern_groups in Hw as (g0 & g1 & g2 & g3 & g4 & g5 & g6 & -> & H).
  exact H.
Qed.

Lemma unsigned_sign_clear s v :
  FloatOfStr.unsigned s = Some v -> Float.sign_clear v = true.
Proof.
  unfold FloatOfStr.unsigned.
  destruct (FloatOfStr.scan s false 0 0 false) as [[[mant frac] [|]]|];
    try discriminate.
  intros E. injection E as <-. apply FloatFacts.of_ratio_sign_clear.
Qed.

Lemma is_num_not_sign c :
  is_num c = true -> N.eqb c 45 = false /\ N.eqb c 43 = false.
Proof.
  unfold is_num, is_digit. intros H.
  split; [destruct (N.eqb_spec c 45)|destruct (N.eqb_spec c 43)];
    try reflexivity; subst c; discriminate.
Qed.

(** [float] of a string of digits and points is never below zero. *)
Lemma float_of_num_not_negative s v :
  forallb is_num s = true ->
  FloatOfStr.float_of_str s = Some v ->
  Float.ltb v (Float.of_Z 0) = false.
Proof.
  intros Hs Hv. apply FloatFacts.sign_clear_not_negative.
  destruct s as [|c s]; [exact (unsigned_sign_clear _ Hv)|].
  simpl in Hs. apply andb_prop in Hs as [Hc _].
  apply is_num_not_sign in Hc as [H45 H43].
  unfold FloatOfStr.float_of_str in Hv. rewrite H45, H43 in Hv.
  exact (unsigned_sign_clear _ Hv).
Qed.

(** C9: the negative-magnitude branch is unreachable.  For every input
    text, the magnitude group of every tuple that [re.findall] returns is
    a non-empty string over [[0-9.]]; whenever [float] accepts it the
    result is not below zero, so no measurement is skipped for being
    negative. *)
Theorem negative_time_unreachable content m :
  In m (findall pat content) ->
  (group 3 m <> [] /\ forallb is_num (group 3 m) = true) /\
  (forall v, FloatOfStr.float_of_str (group 3 m) = Some v ->
             Float.ltb v (Float.of_Z 0) = false) /\
  measure m <> NegativeTime.
Proof.
  intros Hin. destruct (findall_groups _ _ Hin) as [Hne Hnum].
  split; [auto|]. split.
  - intros v. apply float_of_num_not_negative, Hnum.
  - unfold measure.
    destruct (FloatOfStr.float_of_str (group 3 m)) as [v|] eqn:Hv;
      [|discriminate].
    rewrite (float_of_num_not_negative _ Hnum Hv).
    destruct (to_nanoseconds v (group 4 m)); discriminate.
Qed.




End ParserFacts.

Lemma negative_time_unreachable_witness :
  measure [lit "x"; lit "1"; lit "ns"; lit "2"; lit "ns"; lit "3"; lit "ns"]
    <> NegativeTime.
Proof.
  apply (proj2 (proj2 (@negative_time_unreachable ascii_word ascii_space
                         (lit "x time: [1 ns 2 ns 3 ns]") _
                         (or_introl eq_refl)))).
Defined.


(** ** Loops that may raise *)

Section ForEach.

Variables A B : Type.

Implicit Types (l : list A) (body : A -> option (list B)).

Lemma for_each_In l body : forall rs,
  for_each l body = Some rs ->
  forall c, In c rs <-> exists x r, In x l /\ body x = Some r /\ In c r.
Proof.
  induction l as [|x l IH]; simpl; intros rs.
  - intros E. injection E as <-. intros c. split; [intros []|].
    intros (x & r & [] & _).
  - destruct (body x) as [r|] eqn:Hx; [|discriminate].
    destruct (for_each l body) as [rs'|]; [|discriminate].
    intros E. injection E as <-. intros c. rewrite in_app_iff, (IH rs' eq_refl).
    split.
    + intros [Hc|(y & r' & Hy & Hb & Hc)]; [exists x, r|exists y, r']; auto.
    + intros (y & r' & [<-|Hy] & Hb & Hc).
      * left. congruence.
      * right. exists y, r'. auto.
Qed.

Lemma for_each_total l body :
  (forall x, In x l -> exists r, body x = Some r) ->
  exists rs, for_each l body = Some rs.
Proof.
  induction l as [|x l IH]; simpl; intros H; [eauto|].
  destruct (H x (or_introl eq_refl)) as [r ->].
  destruct IH as [rs ->]; eauto.
Qed.

End ForEach.

(** ** Runs and their comparison *)

Lemma compare_fields suite test p c r :
  compare suite test p c = Some r ->
  c_suite r = suite /\ c_test r = test /\ prev_time r = p /\ curr_time r = c.
Proof.
  unfold compare. destruct (Float.eqb p (Float.of_Z 0)).
  - intros E. injection E as <-. auto.
  - destruct (Float.div (Float.sub c p) p); [|discriminate].
    intros E. injection E as <-. auto.
Qed.

Lemma compare_test_total pb suite lt test :
  mem suite pb = true -> In test (keys lt) ->
  exists r, compare_test pb suite lt test = Some r.
Proof.
  intros Hp Ht. unfold compare_test.
  apply DictFacts.mem_get in Hp as [pt ->].
  destruct (mem test pt) eqn:Hm; simpl; [|eauto].
  apply DictFacts.mem_get in Hm as [p ->].
  destruct (DictFacts.keys_get _ _ Ht) as [cu ->].
  destruct (compare_total suite test p cu) as [c ->]. eauto.
Qed.

Lemma compare_test_In pb suite lt test r c :
  compare_test pb suite lt test = Some r ->
  (In c r <->
   exists pt,
     get suite pb = Some pt /\
     get test pt = Some (prev_time c) /\ get test lt = Some (curr_time c) /\
     compare suite test (prev_time c) (curr_time c) = Some c).
Proof.
  unfold compare_test.
  destruct (get suite pb) as [pt|]; [|discriminate].
  destruct (mem test pt) eqn:Hm; simpl.
  - destruct (get test pt) as [p|] eqn:Hgp; [|discriminate].
    destruct (get test lt) as [cu|] eqn:Hgc; [|discriminate].
    destruct (compare suite test p cu) as [c'|] eqn:Hcmp; [|discriminate].
    intros E. injection E as <-.
    destruct (compare_fields _ _ _ _ Hcmp) as (_ & _ & E1 & E2).
    simpl. split.
    + intros [<-|[]]. exists pt. rewrite E1, E2. repeat split; assumption.
    + intros (pt' & Hpt & Hp & Hc & Hcmp'). left.
      injection Hpt as <-. congruence.
  - intros E. injection E as <-. simpl. split; [tauto|].
    intros (pt' & Hpt & Hp & _). injection Hpt as <-.
    unfold mem in Hm. rewrite Hp in Hm. discriminate.
Qed.

Lemma compare_suite_total lb pb suite :
  In suite (keys lb) -> exists r, compare_suite lb pb suite = Some r.
Proof.
  intros Hs. unfold compare_suite.
  destruct (mem suite pb) eqn:Hp; simpl; [|eauto].
  destruct (DictFacts.keys_get _ _ Hs) as [lt ->].
  apply for_each_total. intros test Ht. apply compare_test_total; assumption.
Qed.

Lemma compare_suite_In lb pb suite r c :
  compare_suite lb pb suite = Some r ->
  (In c r <->
   exists lt pt test,
     get suite lb = Some lt /\ get suite pb = Some pt /\
     In test (keys lt) /\
     get test pt = Some (prev_time c) /\ get test lt = Some (curr_time c) /\
     compare suite test (prev_time c) (curr_time c) = Some c).
Proof.
  unfold compare_suite. destruct (mem suite pb) eqn:Hp; simpl.
  - destruct (get suite lb) as [lt|]; [|discriminate].
    intros Hr. rewrite (for_each_In _ _ Hr c). split.
    + intros (test & r' & Ht & Hb & Hc).
      apply (compare_test_In _ _ _ _ c Hb) in Hc as (pt & H1 & H2 & H3 & H4).
      exists lt, pt, test. repeat split; assumption.
    + intros (lt' & pt & test & Hlt & Hpt & Ht & H2 & H3 & H4).
      injection Hlt as <-.
      destruct (compare_test_total pb suite lt test Hp Ht) as [r' Hr'].
      exists test, r'. split; [exact Ht|]. split; [exact Hr'|].
      apply (compare_test_In _ _ _ _ c Hr'). exists pt. repeat split; assumption.
  - intros E. injection E as <-. simpl. split; [tauto|].
    intros (lt & pt & test & _ & Hpt & _). unfold mem in Hp.
    rewrite Hpt in Hp. discriminate.
Qed.

(** The rows of the comparison: no subscript fails, and a row is exactly a
    pair found in both runs, with the values found there. *)
Lemma comparison_rows_spec (lb pb : dict (dict Float.float)) :
  exists rows,
    comparison_rows lb pb = Some rows /\
    forall c, In c rows <->
      exists lt pt,
        get (c_suite c) lb = Some lt /\ get (c_suite c) pb = Some pt /\
        get (c_test c) lt = Some (curr_time c) /\
        get (c_test c) pt = Some (prev_time c) /\
        compare (c_suite c) (c_test c) (prev_time c) (curr_time c) = Some c.
Proof.
  unfold comparison_rows.
  destruct (@for_each_total _ _ (keys lb) (compare_suite lb pb)
              (compare_suite_total lb pb)) as [rows Hrows].
  exists rows. split; [exact Hrows|]. intros c.
  rewrite (for_each_In _ _ Hrows c). split.
  - intros (suite & r & Hs & Hb & Hc).
    apply (compare_suite_In _ _ _ c Hb) in Hc
      as (lt & pt & test & Hlt & Hpt & Ht & Hp & Hc & Hcmp).
    destruct (compare_fields _ _ _ _ Hcmp) as (<- & <- & _).
    exists lt, pt. repeat split; assumption.
  - intros (lt & pt & Hlt & Hpt & Hgc & Hgp & Hcmp).
    assert (Hs : In (c_suite c) (keys lb))
      by (apply DictFacts.mem_keys, DictFacts.mem_get; eauto).
    assert (Ht : In (c_test c) (keys lt))
      by (apply DictFacts.mem_keys, DictFacts.mem_get; eauto).
    destruct (compare_suite_total lb pb _ Hs) as [r Hr].
    exists (c_suite c), r. split; [exact Hs|]. split; [exact Hr|].
    apply (compare_suite_In _ _ _ c Hr). exists lt, pt, (c_test c). repeat split; assumption.
Qed.

Section RunFacts.

Variable is_word : char -> bool.
Variable is_space : char -> bool.
Variable datetime : Type.
Variable strptime : str -> option datetime.

Local Abbreviation parse := (parse_benchmark_results is_word is_space strptime).
Local Abbreviation parse_run' := (parse_run is_word is_space strptime).

(** C6: with at least two runs stored, the comparison loops raise
    nothing, the table holds one row per tuple they produce, and the pairs
    of the rows are exactly the (suite, test) pairs present in both the last
    and the second-to-last run; each row shows the values stored for its
    pair in those two runs, so a pair absent from the previous run has no
    row. *)
Theorem comparison_set (results : list (run datetime)) latest previous :
  last_run results = Some latest ->
  previous_run results = Some previous ->
  exists rows,
    comparison_rows (benchmarks latest) (benchmarks previous) = Some rows /\
    comparison_html results =
      Some (lit "<table><tr><th>Benchmark</th><th>Test</th><th>Previous</th><th>Latest</th><th>Change</th></tr>"
            ++ List.concat (List.map comparison_row rows) ++ lit "</table>") /\
    (forall suite test,
       (exists c, In c rows /\ c_suite c = suite /\ c_test c = test) <->
       (exists lt pt,
          get suite (benchmarks latest) = Some lt /\ mem test lt = true /\
          get suite (benchmarks previous) = Some pt /\ mem test pt = true)) /\
    (forall c, In c rows ->
       exists lt pt,
         get (c_suite c) (benchmarks latest) = Some lt /\
         get (c_test c) lt = Some (curr_time c) /\
         get (c_suite c) (benchmarks previous) = Some pt /\
         get (c_test c) pt = Some (prev_time c)).
Proof.
  intros Hl Hp.
  destruct (comparison_rows_spec (benchmarks latest) (benchmarks previous))
    as (rows & Hrows & Hin).
  exists rows. split; [exact Hrows|]. split; [|split].
  - unfold comparison_html. rewrite Hl, Hp, Hrows. reflexivity.
  - intros suite test. split.
    + intros (c & Hc & <- & <-).
      apply Hin in Hc as (lt & pt & Hlt & Hpt & Hgc & Hgp & _).
      exists lt, pt. repeat split; try assumption;
        apply DictFacts.mem_get; eauto.
    + intros (lt & pt & Hlt & Hml & Hpt & Hmp).
      apply DictFacts.mem_get in Hml as [cu Hcu].
      apply DictFacts.mem_get in Hmp as [p Hgp].
      destruct (compare_total suite test p cu) as [c Hc].
      destruct (compare_fields _ _ _ _ Hc) as (E1 & E2 & E3 & E4).
      exists c. split; [|auto]. apply Hin. exists lt, pt.
      rewrite E1, E2, E3, E4. auto.
  - intros c Hc. apply Hin in Hc as (lt & pt & Hlt & Hpt & Hgc & Hgp & _).
    exists lt, pt. auto.
Qed.

(** The comparison table never raises. *)
Lemma comparison_html_total (results : list (run datetime)) :
  exists cmp, comparison_html results = Some cmp.
Proof.
  unfold comparison_html.
  destruct (last_run results) as [latest|]; [|eauto].
  destruct (previous_run results) as [previous|]; [|eauto].
  destruct (comparison_rows_spec (benchmarks latest) (benchmarks previous))
    as (rows & -> & _).
  eauto.
Qed.

(** *** The invariant of the results store *)

Lemma store_nonempty bench test v b :
  suites_nonempty b -> suites_nonempty (store bench test v b).
Proof.
  intros H. unfold store. apply DictFacts.set_Forall; [|exact H].
  simpl. apply DictFacts.set_not_empty.
Qed.

Lemma store_matches_nonempty bench matches : forall b,
  suites_nonempty b -> suites_nonempty (store_matches bench matches b).
Proof.
  induction matches as [|m rest IH]; intros b Hb; simpl; [exact Hb|].
  apply IH. destruct (measure m); auto using store_nonempty.
Qed.

Lemma parse_file_nonempty b f :
  suites_nonempty b -> suites_nonempty (parse_file is_word is_space b f).
Proof.
  intros Hb. unfold parse_file. destruct (snd f) as [content|]; [|exact Hb].
  destruct (forallb is_space content); [exact Hb|].
  destruct (findall (pattern is_word is_space) content); [exact Hb|].
  apply store_matches_nonempty, Hb.
Qed.

Lemma parse_files_nonempty files : forall b,
  suites_nonempty b ->
  suites_nonempty (fold_left (parse_file is_word is_space) files b).
Proof.
  induction files as [|f files IH]; intros b Hb; simpl; [exact Hb|].
  apply IH, parse_file_nonempty, Hb.
Qed.

(** A directory becomes a run only with a parsed time stamp and at least
    one suite, each suite with at least one test. *)
Lemma parse_run_some name n r :
  parse_run' name n = Some r ->
  strptime name = Some (timestamp r) /\
  benchmarks r <> [] /\ suites_nonempty (benchmarks r).
Proof.
  unfold parse_run. destruct n as [|files]; [discriminate|].
  destruct (strptime name) as [dt|]; [|discriminate].
  destruct (glob_txt files) as [|f fs] eqn:Hg; [discriminate|].
  pose proof (@parse_files_nonempty (f :: fs) [] (Forall_nil _)) as Hne.
  destruct (fold_left (parse_file is_word is_space) (f :: fs) []) as [|st b];
    [discriminate|].
  intros E. injection E as <-. simpl. repeat split; [discriminate|exact Hne].
Qed.

(** The runs of a sorted list of directories come from a sorted selection
    of them, in order. *)
Lemma parse_dirs_sorted ds :
  StronglySorted (@DictFacts.key_le node) ds ->
  exists kept,
    StronglySorted (@DictFacts.key_le node) kept /\
    Forall (fun d => In d ds) kept /\
    Forall2 (fun d r => parse_run' (fst d) (snd d) = Some r)
            kept (parse_dirs is_word is_space strptime ds).
Proof.
  induction 1 as [|[name n] ds Hs IH Hall]; simpl.
  - exists []. repeat constructor.
  - destruct IH as (kept & Hk & Hin & Hf).
    assert (Hin' : Forall (fun d => In d ((name, n) :: ds)) kept).
    { eapply Forall_impl; [|exact Hin]. simpl. auto. }
    destruct (parse_run' name n) as [r|] eqn:Hr.
    + exists ((name, n) :: kept). repeat split.
      * constructor; [exact Hk|]. rewrite Forall_forall in *.
        intros d Hd. auto.
      * constructor; [simpl; auto|exact Hin'].
      * constructor; [exact Hr|exact Hf].
    + exists kept. auto.
Qed.

(** C7: the results store built from a root directory lists its runs in
    ascending order of the directory names they come from, and every run
    stored has at least one suite, each suite with at least one test: a
    directory that yields no parsed benchmark gives no run. *)
Theorem results_store_invariant (root : option (list (str * node))) :
  (exists dirs,
     StronglySorted (fun a b => Str.leb (fst a) (fst b) = true) dirs /\
     Forall (fun d => exists entries, root = Some entries /\ In d entries) dirs /\
     Forall2 (fun d r => parse_run' (fst d) (snd d) = Some r /\
                         strptime (fst d) = Some (timestamp r))
             dirs (parse root))
  /\
  Forall (fun r => benchmarks r <> [] /\
                   Forall (fun st => snd st <> []) (benchmarks r))
         (parse root)
  /\
  (forall name n r, parse_run' name n = Some r -> benchmarks r <> []).
Proof.
  assert (Hsome : forall name n r, parse_run' name n = Some r ->
                    benchmarks r <> [] /\ suites_nonempty (benchmarks r)).
  { intros name n r Hr. apply parse_run_some in Hr. tauto. }
  assert (Hdirs : exists dirs,
     StronglySorted (fun a b => Str.leb (fst a) (fst b) = true) dirs /\
     Forall (fun d => exists entries, root = Some entries /\ In d entries) dirs /\
     Forall2 (fun d r => parse_run' (fst d) (snd d) = Some r /\
                         strptime (fst d) = Some (timestamp r))
             dirs (parse root)).
  { destruct root as [entries|]; simpl.
    - destruct (parse_dirs_sorted (DictFacts.sorted_sorted (glob_star entries)))
        as (kept & Hk & Hin & Hf).
      exists kept. split; [exact Hk|]. split.
      + eapply Forall_impl; [|exact Hin]. intros d Hd. exists entries.
        split; [reflexivity|].
        apply (proj1 (DictFacts.sorted_In _ _)) in Hd. unfold glob_star in Hd.
        apply (proj1 (filter_In _ _ _)) in Hd. tauto.
      + eapply Forall2_impl; [|exact Hf]. intros d r Hr. split; [exact Hr|].
        apply parse_run_some in Hr. tauto.
    - exists []. repeat constructor. }
  split; [exact Hdirs|]. split.
  - destruct Hdirs as (dirs & _ & _ & Hf). clear - Hf Hsome.
    induction Hf as [|d r dirs rs [Hr _] Hf IH]; constructor; eauto.
  - intros name n r Hr. apply Hsome in Hr. tauto.
Qed.

End RunFacts.

Lemma results_store_invariant_witness :
  Forall (fun r : run str => benchmarks r <> [])
         (parse_benchmark_results ascii_word ascii_space stamp
            (results_dir sample_world))
  /\ List.length (parse_benchmark_results ascii_word ascii_space stamp
                    (results_dir sample_world)) = 2.
Proof.
  split; [|reflexivity].
  eapply Forall_impl;
    [|exact (proj1 (proj2 (@results_store_invariant ascii_word ascii_space
                             str stamp (results_dir sample_world))))].
  intros r H. exact (proj1 H).
Defined.

Lemma comparison_set_witness :
  exists rows,
    comparison_rows
      [(lit "parser", [(lit "parse_expr", Float.of_Z 180000);
                       (lit "new_test", Float.of_Z 5)])]
      [(lit "parser", [(lit "parse_expr", Float.of_Z 200000)])] = Some rows /\
    List.map c_test rows = [lit "parse_expr"].
Proof.
  destruct (@comparison_set str
              [ {| timestamp := lit "20240101_000000";
                   benchmarks :=
                     [(lit "parser", [(lit "parse_expr", Float.of_Z 200000)])] |};
                {| timestamp := lit "20240102_000000";
                   benchmarks :=
                     [(lit "parser", [(lit "parse_expr", Float.of_Z 180000);
                                      (lit "new_test", Float.of_Z 5)])] |} ]
              _ _ eq_refl eq_refl) as (rows & Hrows & _).
  exists rows. split; [exact Hrows|].
  vm_compute in Hrows. injection Hrows as <-. reflexivity.
Defined.

(** ** The pipeline *)

Section PipelineFacts.

Variable is_word : char -> bool.
Variable is_space : char -> bool.
Variable datetime : Type.
Variable strptime : str -> option datetime.

Local Abbreviation parse := (parse_benchmark_results is_word is_space strptime).
Local Abbreviation main' := (main is_word is_space strptime).

(** Charts change the files of the dashboard directory and nothing else. *)
Lemma generate_charts_env (results : list (run datetime)) w :
  makedirs_ok (generate_charts results w) = makedirs_ok w /\
  open_ok (generate_charts results w) = open_ok w /\
  clock (generate_charts results w) = clock w /\
  results_dir (generate_charts results w) = results_dir w.
Proof.
  unfold generate_charts.
  destruct (negb (matplotlib_available w)); [auto|].
  destruct (negb (makedirs_ok w)); [auto|].
  generalize (group_by_suite results). intros suites.
  assert (H : forall w0,
             makedirs_ok w0 = makedirs_ok w /\ open_ok w0 = open_ok w /\
             clock w0 = clock w /\ results_dir w0 = results_dir w ->
             let w' :=
               fold_left
                 (fun w1 st =>
                    if (has_data results (fst st) (keys (snd st))
                        && savefig_ok w1 (fst st))%bool
                    then set_files (set (chart_name (fst st)) Png
                                        (output_files w1)) w1
                    else w1) suites w0 in
             makedirs_ok w' = makedirs_ok w /\ open_ok w' = open_ok w /\
             clock w' = clock w /\ results_dir w' = results_dir w).
  { induction suites as [|st suites IH]; intros w0 Hw0; simpl; [exact Hw0|].
    apply IH.
    destruct (has_data results (fst st) (keys (snd st))
              && savefig_ok w0 (fst st))%bool; [|exact Hw0].
    exact Hw0. }
  apply H. auto.
Qed.




End PipelineFacts.




(** * Further properties of the generator *)

(** ** Files of the dashboard directory *)

Section DictKeys.

Variable A : Type.

Lemma keys_set k (v : A) d k' :
  In k' (keys (set k v d)) <-> k' = k \/ In k' (keys d).
Proof.
  induction d as [|[k0 v0] d IH]; simpl.
  - intuition auto.
  - destruct (Str.eqb k k0) eqn:E; simpl.
    + apply StrFacts.eqb_eq in E. subst k0. intuition auto.
    + rewrite IH. intuition auto.
Qed.

End DictKeys.

Lemma chart_name_not_dashboard suite : chart_name suite <> dashboard.
Proof.
  unfold chart_name. intros H. apply (f_equal (@rev char)) in H.
  rewrite rev_app_distr in H. vm_compute in H. discriminate.
Qed.

Lemma chart_name_inj s1 s2 : chart_name s1 = chart_name s2 -> s1 = s2.
Proof. unfold chart_name. apply app_inv_tail. Qed.

Section ChartFacts.

Variable datetime : Type.

Implicit Types (results : list (run datetime)) (w : world).

(** The suites grouped for plotting are suites of some run. *)
Lemma group_by_suite_keys results suite :
  In suite (keys (group_by_suite results)) ->
  exists r, In r results /\ In suite (keys (benchmarks r)).
Proof.
  unfold group_by_suite.
  assert (H : forall rs (b : dict (dict (list Float.float))),
             In suite
                (keys
                   (fold_left
                      (fun b (r : run datetime) =>
                         fold_left
                           (fun b st =>
                              fold_left
                                (fun b tt =>
                                   add_time (fst st) (fst tt) (snd tt) b)
                                (snd st) b)
                           (benchmarks r) b)
                      rs b)) ->
             In suite (keys b) \/
             exists r, In r rs /\ In suite (keys (benchmarks r))).
  { induction rs as [|r rs IH]; intros b; simpl; [auto|].
    intros Hin. apply IH in Hin as [Hin|(r' & Hr' & Hs)];
      [|right; exists r'; auto].
    assert (Hr : forall sts (b0 : dict (dict (list Float.float))),
               In suite
                  (keys
                     (fold_left
                        (fun b1 (st : str * dict Float.float) =>
                           fold_left
                             (fun b2 tt =>
                                add_time (fst st) (fst tt) (snd tt) b2)
                             (snd st) b1)
                        sts b0)) ->
               In suite (keys b0) \/ In suite (keys sts)).
    { clear. induction sts as [|st sts IH]; intros b0; simpl; [auto|].
      intros Hin. apply IH in Hin as [Hin|Hin]; [|auto].
      assert (Ht : forall tts (b1 : dict (dict (list Float.float))),
                 In suite
                    (keys
                       (fold_left
                          (fun b2 (tt : str * Float.float) =>
                             add_time (fst st) (fst tt) (snd tt) b2)
                          tts b1)) ->
                 In suite (keys b1) \/ suite = fst st).
      { clear. induction tts as [|tt tts IH]; intros b1; simpl; [auto|].
        intros Hin. apply IH in Hin as [Hin|Hin]; [|auto].
        unfold add_time in Hin. apply keys_set in Hin as [Hin|Hin]; auto. }
      apply Ht in Hin as [Hin|Hin]; auto. }
    apply Hr in Hin as [Hin|Hin]; [auto|].
    right. exists r. auto. }
  intros Hin. apply H in Hin as [[]|Hin]. exact Hin.
Qed.

(** What [generate_charts] does to one file name. *)
Lemma generate_charts_get results w name :
  get name (output_files (generate_charts results w))
    = get name (output_files w)
  \/
  (get name (output_files (generate_charts results w)) = Some Png /\
   matplotlib_available w = true /\ makedirs_ok w = true /\
   exists suite r,
     name = chart_name suite /\ In r results /\
     mem suite (benchmarks r) = true).
Proof.
  unfold generate_charts.
  destruct (matplotlib_available w) eqn:Hm; simpl; [|auto].
  destruct (makedirs_ok w) eqn:Hk; simpl; [|auto].
  assert (H : forall sts w0,
             let w' :=
               fold_left
                 (fun w1 (st : str * dict (list Float.float)) =>
                    if (has_data results (fst st) (keys (snd st))
                        && savefig_ok w1 (fst st))%bool
                    then set_files (set (chart_name (fst st)) Png
                                        (output_files w1)) w1
                    else w1) sts w0 in
             get name (output_files w') = get name (output_files w0) \/
             (get name (output_files w') = Some Png /\
              exists suite, name = chart_name suite /\ In suite (keys sts))).
  { induction sts as [|st sts IH]; intros w0; simpl; [auto|].
    match goal with
    | |- context [fold_left _ sts ?w1] => destruct (IH w1) as [Hg|(Hg & s & Hs)]
    end.
    - rewrite Hg.
      destruct (has_data results (fst st) (keys (snd st))
                && savefig_ok w0 (fst st))%bool; [|auto].
      simpl. destruct (list_eq_dec N.eq_dec name (chart_name (fst st)))
        as [->|Hne].
      + right. rewrite DictFacts.get_set_same. split; [reflexivity|].
        exists (fst st). auto.
      + left. apply DictFacts.get_set_other. exact Hne.
    - right. split; [exact Hg|]. exists s. tauto. }
  destruct (H (group_by_suite results) w) as [Hg|(Hg & s & -> & Hs)];
    [auto|].
  right. split; [exact Hg|]. split; [reflexivity|]. split; [reflexivity|].
  apply group_by_suite_keys in Hs as (r & Hr & Hin).
  exists s, r. split; [reflexivity|]. split; [exact Hr|].
  apply DictFacts.mem_keys. exact Hin.
Qed.

(** X5: [generate_charts] leaves every file of the dashboard directory
    as it was, except that it may write images named
    [<suite>_performance.png], and only for suites of some parsed run, only
    when the plotting backend is available and the directory can be
    made. *)
Theorem generate_charts_files results w :
  (forall name,
     (forall suite, name <> chart_name suite) ->
     get name (output_files (generate_charts results w))
       = get name (output_files w))
  /\
  (forall name,
     get name (output_files (generate_charts results w))
       <> get name (output_files w) ->
     get name (output_files (generate_charts results w)) = Some Png /\
     matplotlib_available w = true /\ makedirs_ok w = true /\
     exists suite r,
       name = chart_name suite /\ In r results /\
       mem suite (benchmarks r) = true).
Proof.
  split; intros name H.
  - destruct (generate_charts_get results w name)
      as [E|(_ & _ & _ & s & r & E & _)]; [exact E|].
    destruct (H s E).
  - destruct (generate_charts_get results w name) as [E|E]; [|exact E].
    destruct (H E).
Qed.

Lemma generate_charts_dashboard results w :
  get dashboard (output_files (generate_charts results w))
    = get dashboard (output_files w).
Proof.
  destruct (generate_charts_get results w dashboard)
    as [H|(_ & _ & _ & s & r & H & _)]; [exact H|].
  symmetry in H. apply chart_name_not_dashboard in H. destruct H.
Qed.

End ChartFacts.

(** ** Exit status of [main] *)

Section ExitFacts.

Variable is_word : char -> bool.
Variable is_space : char -> bool.
Variable datetime : Type.
Variable strptime : str -> option datetime.

Local Abbreviation parse := (parse_benchmark_results is_word is_space strptime).
Local Abbreviation main' := (main is_word is_space strptime).

(** The world in which the report is rendered. *)
Lemma main_unfold w :
  main' w =
    match parse (results_dir w) with
    | [] => (w, Exit 1)
    | r :: rs =>
        let w1 := if matplotlib_available w
                  then generate_charts (r :: rs) w else w in
        match generate_html_dashboard (r :: rs) w1 with
        | None => (w1, Raised)
        | Some w2 =>
            (w2, if mem dashboard (output_files w2) then Exit 0 else Exit 1)
        end
    end.
Proof. unfold main. destruct (parse (results_dir w)); reflexivity. Qed.

Lemma charts_world_env (results : list (run datetime)) w :
  let w1 := if matplotlib_available w then generate_charts results w else w in
  makedirs_ok w1 = makedirs_ok w /\ open_ok w1 = open_ok w /\
  results_dir w1 = results_dir w /\
  get dashboard (output_files w1) = get dashboard (output_files w).
Proof.
  simpl. destruct (matplotlib_available w); [|auto].
  destruct (generate_charts_env results w) as (H1 & H2 & _ & H4).
  rewrite (generate_charts_dashboard results w). auto.
Qed.




(** X3: without an earlier dashboard, a run that parsed results but
    cannot write returns exit status 1 and leaves no [dashboard.html]. *)
Theorem main_write_failure w :
  parse (results_dir w) <> [] ->
  makedirs_ok w = false \/ open_ok w = false ->
  get dashboard (output_files w) = None ->
  snd (main' w) = Exit 1 /\
  get dashboard (output_files (fst (main' w))) = None.
Proof.
  intros Hne Hfail Hold. rewrite main_unfold.
  destruct (parse (results_dir w)) as [|r rs]; [congruence|].
  destruct (charts_world_env (r :: rs) w) as (H1 & H2 & _ & H4).
  simpl in *.
  set (w1 := if matplotlib_available w
             then generate_charts (r :: rs) w else w) in *.
  unfold generate_html_dashboard.
  destruct (comparison_html_total (r :: rs)) as [cmp ->].
  rewrite H1, H2.
  assert (Hmem : mem dashboard (output_files w1) = false).
  { unfold mem. rewrite H4, Hold. reflexivity. }
  destruct Hfail as [Hf|Hf]; rewrite Hf; simpl.
  - rewrite Hmem, H4. auto.
  - destruct (negb (makedirs_ok w)); simpl; rewrite Hmem, H4; auto.
Qed.

(** X4: [main] only reads the results directory, and in the dashboard
    directory it writes nothing but [dashboard.html] and chart images:
    every other file is as it was. *)
Theorem main_touches_only_outputs w :
  results_dir (fst (main' w)) = results_dir w /\
  forall name,
    name <> dashboard ->
    (forall suite, name <> chart_name suite) ->
    get name (output_files (fst (main' w))) = get name (output_files w).
Proof.
  rewrite main_unfold. destruct (parse (results_dir w)) as [|r rs]; simpl.
  - auto.
  - set (w1 := if matplotlib_available w
               then generate_charts (r :: rs) w else w).
    assert (Hres : results_dir w1 = results_dir w)
      by (apply (charts_world_env (r :: rs) w)).
    assert (Hfiles : forall name,
               (forall suite, name <> chart_name suite) ->
               get name (output_files w1) = get name (output_files w)).
    { intros name Hn. unfold w1. destruct (matplotlib_available w); [|auto].
      destruct (generate_charts_get (r :: rs) w name)
        as [H|(_ & _ & _ & s & r' & H & _)]; [exact H|].
      destruct (Hn s H). }
    unfold generate_html_dashboard.
    destruct (comparison_html_total (r :: rs)) as [cmp ->].
    destruct (negb (makedirs_ok w1)); [|destruct (open_ok w1)]; simpl;
      (split; [exact Hres|]); intros name Hd Hn;
      try (rewrite DictFacts.get_set_other by exact Hd); auto.
Qed.

End ExitFacts.



Lemma main_write_failure_witness :
  snd (main ascii_word ascii_space stamp readonly_world) = Exit 1.
Proof.
  apply (@main_write_failure ascii_word ascii_space str stamp readonly_world).
  - vm_compute. discriminate.
  - left. reflexivity.
  - reflexivity.
Defined.

Lemma generate_charts_files_witness :
  get dashboard
      (output_files
         (generate_charts
            (parse_benchmark_results ascii_word ascii_space stamp
               (Some sample_results))
            later_world))
    = Some (Text (lit "old")).
Proof.
  apply (proj1 (@generate_charts_files str
                  (parse_benchmark_results ascii_word ascii_space stamp
                     (Some sample_results))
                  later_world) dashboard).
  intros suite H. symmetry in H. exact (@chart_name_not_dashboard suite H).
Defined.

Lemma main_touches_only_outputs_witness :
  get (lit "notes.txt")
      (output_files (fst (main ascii_word ascii_space stamp later_world)))
    = get (lit "notes.txt") (output_files later_world).
Proof.
  apply (proj2 (@main_touches_only_outputs ascii_word ascii_space str stamp
                  later_world)).
  - discriminate.
  - intros suite H. apply (f_equal (@rev char)) in H.
    unfold chart_name in H. rewrite rev_app_distr in H.
    vm_compute in H. discriminate.
Defined.

(** ** Tuples and their conversion *)

Section TupleFacts.

Variable is_word : char -> bool.
Variable is_space : char -> bool.

Local Abbreviation pat := (pattern is_word is_space).

Lemma is_mu_cases c : is_mu c = true -> c = micro_sign \/ c = greek_mu.
Proof.
  unfold is_mu. intros H. apply orb_prop in H as [H|H];
    apply N.eqb_eq in H; auto.
Qed.

Lemma unit_re_token w g :
  sem (Cat (Opt is_mu) (Plus is_ascii_alpha)) w g -> unit_token w.
Proof.
  simpl. intros (w1 & w2 & g1 & g2 & -> & _ & ([Hmu|(c & -> & Hc)] & _) & Hne & Hal & _).
  - exists [], w2. subst w1. auto.
  - exists [c], w2. apply is_mu_cases in Hc as [->| ->]; auto.
Qed.

(** X6: every tuple of [re.findall] on the pattern has exactly seven
    groups, so no subscript of the loop body is out of range; the test name
    is a non-empty run of word characters, the three magnitudes are
    non-empty strings of digits and points, and the three units are one
    optional micro sign followed by at least one ASCII letter. *)
Theorem tuple_shape content m :
  In m (findall pat content) ->
  List.length m = 7 /\
  (group 0 m <> [] /\ forallb is_word (group 0 m) = true) /\
  (forall i, In i [1; 3; 5] ->
     group i m <> [] /\ forallb is_num (group i m) = true) /\
  (forall i, In i [2; 4; 6] -> unit_token (group i m)).
Proof.
  intros H. apply RegexFacts.findall_sound in H as [w Hw].
  unfold pattern, num_re, unit_re, literal in Hw. cbn [seq sem] in Hw.
  destruct Hw as (w0 & r0 & g0 & h0 & _ & -> & (g0' & -> & Hname) & Hw).
  destruct Hw as (? & r1 & ? & h1 & _ & -> & (_ & _ & ->) & Hw).
  destruct Hw as (? & r2 & ? & h2 & _ & -> & Hlit & Hw).
  assert (Hg : forall ws gs, sem (seq (List.map Chr (lit "time:"))) ws gs ->
                             gs = []).
  { clear. intros ws gs H. vm_compute in H. RegexFacts.break. subst.
    reflexivity. }
  apply Hg in Hlit. subst. clear Hg.
  destruct Hw as (? & r3 & ? & h3 & _ & -> & (_ & _ & ->) & Hw).
  destruct Hw as (? & r4 & ? & h4 & _ & -> & (_ & ->) & Hw).
  destruct Hw as (n1 & r5 & ? & h5 & _ & -> & (? & -> & Hn1 & Hd1 & ->) & Hw).
  destruct Hw as (? & r6 & ? & h6 & _ & -> & (_ & _ & ->) & Hw).
  destruct Hw as (u1 & r7 & ? & h7 & _ & -> & (gu1 & -> & Hu1) & Hw).
  destruct Hw as (? & r8 & ? & h8 & _ & -> & (_ & _ & ->) & Hw).
  destruct Hw as (n2 & r9 & ? & h9 & _ & -> & (? & -> & Hn2 & Hd2 & ->) & Hw).
  destruct Hw as (? & r10 & ? & h10 & _ & -> & (_ & _ & ->) & Hw).
  destruct Hw as (u2 & r11 & ? & h11 & _ & -> & (gu2 & -> & Hu2) & Hw).
  destruct Hw as (? & r12 & ? & h12 & _ & -> & (_ & _ & ->) & Hw).
  destruct Hw as (n3 & r13 & ? & h13 & _ & -> & (? & -> & Hn3 & Hd3 & ->) & Hw).
  destruct Hw as (? & r14 & ? & h14 & _ & -> & (_ & _ & ->) & Hw).
  destruct Hw as (u3 & r15 & ? & h15 & _ & -> & (gu3 & -> & Hu3) & Hw).
  destruct Hw as (? & r16 & ? & h16 & _ & -> & (_ & ->) & (_ & ->)).
  assert (E1 : gu1 = []) by (simpl in Hu1; RegexFacts.break; subst; reflexivity).
  assert (E2 : gu2 = []) by (simpl in Hu2; RegexFacts.break; subst; reflexivity).
  assert (E3 : gu3 = []) by (simpl in Hu3; RegexFacts.break; subst; reflexivity).
  destruct Hname as (Hn0 & Hd0 & ->). subst gu1 gu2 gu3. simpl.
  split; [reflexivity|]. split; [auto|]. split.
  - intros i [<-|[<-|[<-|[]]]]; simpl; auto.
  - intros i [<-|[<-|[<-|[]]]]; simpl; eapply unit_re_token; eassumption.
Qed.

(** A timing that passes the negative-time guard and is converted stays
    not below zero. *)
Lemma mul_not_negative x m e :
  Float.ltb x (Float.of_Z 0) = false ->
  Float.ltb (Float.mul x (S754_finite false m e)) (Float.of_Z 0) = false.
Proof.
  destruct x as [[|]|[|]| |[|] mx ex]; intros H; try discriminate H;
    try reflexivity.
  apply FloatFacts.sign_clear_not_negative. unfold Float.mul, SFmul.
  apply FloatFacts.round_sign_clear.
Qed.

Lemma to_nanoseconds_not_negative mean unit ns :
  Float.ltb mean (Float.of_Z 0) = false ->
  to_nanoseconds mean unit = Some ns ->
  Float.ltb ns (Float.of_Z 0) = false.
Proof.
  intros Hm. unfold to_nanoseconds.
  repeat match goal with
         | |- context [if ?c then _ else _] => destruct c
         end; intros E; try discriminate; injection E as <-;
    try exact Hm; apply mul_not_negative; exact Hm.
Qed.

Lemma measure_not_negative m test ns :
  measure m = Stored test ns -> Float.ltb ns (Float.of_Z 0) = false.
Proof.
  unfold measure.
  destruct (FloatOfStr.float_of_str (group 3 m)) as [mean|]; [|discriminate].
  destruct (Float.ltb mean (Float.of_Z 0)) eqn:Hm; [discriminate|].
  destruct (to_nanoseconds mean (group 4 m)) as [v|] eqn:Hv; [|discriminate].
  intros E. injection E as _ <-.
  eapply to_nanoseconds_not_negative; eassumption.
Qed.

Lemma get_Forall (A : Type) (P : A -> Prop) k (d : dict A) v :
  Forall (fun e => P (snd e)) d -> get k d = Some v -> P v.
Proof.
  induction 1 as [|[k' v'] d Hx Hd IH]; simpl; [discriminate|].
  destruct (Str.eqb k k'); [|exact IH].
  intros E. injection E as <-. exact Hx.
Qed.

Lemma store_not_negative bench test v b :
  Float.ltb v (Float.of_Z 0) = false ->
  timings_not_negative b -> timings_not_negative (store bench test v b).
Proof.
  intros Hv Hb. unfold store, timings_not_negative.
  apply DictFacts.set_Forall; [|exact Hb]. simpl.
  apply DictFacts.set_Forall; [exact Hv|].
  destruct (get bench b) as [tests|] eqn:Hg; [|constructor].
  exact (get_Forall (fun t => Forall (fun tt => Float.ltb (snd tt) (Float.of_Z 0) = false) t)
           bench Hb Hg).
Qed.

Lemma store_matches_not_negative bench matches : forall b,
  timings_not_negative b ->
  timings_not_negative (store_matches bench matches b).
Proof.
  induction matches as [|m rest IH]; intros b Hb; simpl; [exact Hb|].
  apply IH. destruct (measure m) as [test v| | |] eqn:Hm; try exact Hb.
  apply store_not_negative; [|exact Hb].
  eapply measure_not_negative. exact Hm.
Qed.

Lemma parse_files_not_negative files : forall b,
  timings_not_negative b ->
  timings_not_negative (fold_left (parse_file is_word is_space) files b).
Proof.
  induction files as [|f files IH]; intros b Hb; simpl; [exact Hb|].
  apply IH. unfold parse_file. destruct (snd f) as [content|]; [|exact Hb].
  destruct (forallb is_space content); [exact Hb|].
  destruct (findall pat content); [exact Hb|].
  apply store_matches_not_negative, Hb.
Qed.

(** The loop over the tuples of a file leaves the other suites alone. *)
Lemma store_matches_other bench matches other : forall b,
  other <> bench ->
  get other (store_matches bench matches b) = get other b.
Proof.
  induction matches as [|m rest IH]; intros b Hne; simpl; [reflexivity|].
  rewrite (IH _ Hne). destruct (measure m) as [t v| | |]; try reflexivity.
  unfold store. apply DictFacts.get_set_other. exact Hne.
Qed.

(** X8: within one benchmark file the last measurement of a test wins.
    After the loop over the tuples, the timing stored for a test of the
    suite is the value of the last tuple with that test name that was
    stored, and the value held before when there is none; the tests of
    other suites are not touched. *)
Theorem store_matches_last_wins bench matches test :
  forall b,
    lookup bench test (store_matches bench matches b) =
      match last_stored test matches with
      | Some ns => Some ns
      | None => lookup bench test b
      end
    /\
    forall other, other <> bench ->
      get other (store_matches bench matches b) = get other b.
Proof.
  intros b. split; [|intros other Hne; apply store_matches_other, Hne].
  revert b. induction matches as [|m rest IH]; intros b; simpl; [auto|].
  rewrite IH. destruct (last_stored test rest) as [ns|]; [reflexivity|].
  destruct (measure m) as [t v| | |]; try reflexivity.
  unfold lookup, store. rewrite DictFacts.get_set_same.
  destruct (Str.eqb t test) eqn:E.
  - apply StrFacts.eqb_eq in E. subst t. apply DictFacts.get_set_same.
  - apply StrFacts.eqb_neq in E.
    rewrite DictFacts.get_set_other by congruence.
    destruct (get bench b); reflexivity.
Qed.

(** X9: a benchmark file only writes to the suite named after it: the
    entry of every other suite of the run is as it was, whatever the file
    holds. *)
Theorem parse_file_other_suites b f other :
  other <> stem (fst f) ->
  get other (parse_file is_word is_space b f) = get other b.
Proof.
  intros Hne. unfold parse_file. destruct (snd f) as [content|]; [|reflexivity].
  destruct (forallb is_space content); [reflexivity|].
  destruct (findall pat content) as [|m ms]; [reflexivity|].
  apply store_matches_other. exact Hne.
Qed.

End TupleFacts.

Section StoreFacts.

Variable is_word : char -> bool.
Variable is_space : char -> bool.
Variable datetime : Type.
Variable strptime : str -> option datetime.

Local Abbreviation parse := (parse_benchmark_results is_word is_space strptime).

(** X14: no timing of the results store is below zero: in every run
    parsed from any results directory, every test of every suite holds a
    value for which [value < 0] is false. *)
Theorem results_not_negative root :
  Forall (fun r => timings_not_negative (benchmarks r)) (parse root).
Proof.
  assert (Hrun : forall name n r,
             parse_run is_word is_space strptime name n = Some r ->
             timings_not_negative (benchmarks r)).
  { intros name n r. unfold parse_run. destruct n as [|files]; [discriminate|].
    destruct (strptime name) as [dt|]; [|discriminate].
    destruct (glob_txt files) as [|f fs]; [discriminate|].
    pose proof (@parse_files_not_negative is_word is_space (f :: fs) []
                  (Forall_nil _)) as Hb.
    destruct (fold_left (parse_file is_word is_space) (f :: fs) [])
      as [|st b]; [discriminate|].
    intros E. injection E as <-. exact Hb. }
  destruct root as [entries|]; simpl; [|constructor].
  generalize (timestamp_dirs entries). intros ds.
  induction ds as [|[name n] ds IH]; simpl; [constructor|].
  destruct (parse_run is_word is_space strptime name n) as [r|] eqn:Hr;
    [|exact IH].
  constructor; [|exact IH]. eapply Hrun. exact Hr.
Qed.

End StoreFacts.

Lemma tuple_shape_witness :
  unit_token (micro_sign :: lit "s").
Proof.
  apply (proj2 (proj2 (proj2
           (@tuple_shape ascii_word ascii_space
              (lit "f time: [1 " ++ [micro_sign] ++ lit "s 2 "
               ++ [micro_sign] ++ lit "s 3 " ++ [micro_sign] ++ lit "s]")
              _ (or_introl eq_refl)))) 4).
  simpl. auto.
Defined.

Lemma parse_file_other_suites_witness :
  get (lit "lexer")
      (parse_file ascii_word ascii_space
         [(lit "lexer", [(lit "tokenize", Float.of_Z 12)])]
         (lit "parser.txt", Some (lit "parse_expr time: [1 ns 2 ns 3 ns]")))
    = Some [(lit "tokenize", Float.of_Z 12)].
Proof.
  apply (@parse_file_other_suites ascii_word ascii_space
           [(lit "lexer", [(lit "tokenize", Float.of_Z 12)])]
           (lit "parser.txt", Some (lit "parse_expr time: [1 ns 2 ns 3 ns]"))
           (lit "lexer")).
  discriminate.
Defined.

(** ** A pair whose timing did not change *)

Lemma sub_same_finite s m e :
  Float.sub (S754_finite s m e) (S754_finite s m e) = S754_zero false.
Proof.
  unfold Float.sub, SFsub. rewrite Z.sub_diag. reflexivity.
Qed.

(** X15: a pair with the same timing in both runs is never coloured and
    never shows a percentage: the change cell is "N/A" when the timing is
    zero and "~" otherwise, and its class is neutral. *)
Theorem compare_unchanged suite test (p : Float.float) :
  exists r,
    compare suite test p p = Some r /\
    change_class r = [] /\
    change_str r =
      (if Float.eqb p (Float.of_Z 0) then lit "N/A" else lit "~").
Proof.
  destruct p as [[|]|[|]| |[|] m e];
    try (eexists; split; [reflexivity|]; split; reflexivity).
  - unfold compare.
    change (Float.eqb (S754_finite true m e) (Float.of_Z 0)) with false.
    unfold Float.div. cbn [Float.is_zero]. rewrite sub_same_finite.
    eexists. split; [reflexivity|]. split; reflexivity.
  - unfold compare.
    change (Float.eqb (S754_finite false m e) (Float.of_Z 0)) with false.
    unfold Float.div. cbn [Float.is_zero]. rewrite sub_same_finite.
    eexists. split; [reflexivity|]. split; reflexivity.
Qed.

Lemma store_matches_last_wins_witness :
  lookup (lit "parser") (lit "parse_expr")
    (store_matches (lit "parser")
       (findall (pattern ascii_word ascii_space)
          (lines [ lit "parse_expr time: [1 ns 2 ns 3 ns]";
                   lit "parse_expr time: [4 ns 5 ns 6 ns]" ]))
       [])
    = Some (Float.of_Z 5)
  /\
  get (lit "lexer")
    (store_matches (lit "parser")
       (findall (pattern ascii_word ascii_space)
          (lit "parse_expr time: [1 ns 2 ns 3 ns]"))
       [(lit "lexer", [])])
    = Some [].
Proof.
  split.
  - rewrite (proj1 (store_matches_last_wins (lit "parser") _
                      (lit "parse_expr") [])).
    reflexivity.
  - apply (proj2 (store_matches_last_wins (lit "parser") _
                    (lit "parse_expr") [(lit "lexer", [])])).
    discriminate.
Defined.

(** ** Magnitudes that [float] rejects *)

Lemma digit_not_point c : is_digit c = true -> N.eqb c 46 = false.
Proof.
  unfold is_digit. intros H. destruct (N.eqb_spec c 46); [|reflexivity].
  subst c. discriminate.
Qed.

Lemma scan_spec s : forall seen mant frac any,
  forallb is_num s = true ->
  match FloatOfStr.scan s seen mant frac any with
  | None => 2 <= (if seen then 1 else 0) + count_points s
  | Some (_, _, any') =>
      (if seen then 1 else 0) + count_points s <= 1 /\
      any' = (any || existsb is_digit s)%bool
  end.
Proof.
  unfold count_points.
  induction s as [|c s IH]; intros seen mant frac any Hs.
  - simpl. rewrite orb_false_r. destruct seen; auto.
  - cbn [forallb] in Hs. apply andb_prop in Hs as [Hc Hs].
    cbn [FloatOfStr.scan existsb count_occ].
    destruct (is_digit c) eqn:Hd.
    + pose proof (digit_not_point c Hd) as Hp. apply N.eqb_neq in Hp.
      destruct (N.eq_dec c 46) as [E|_]; [congruence|].
      specialize (IH seen (10 * mant + (c - 48))%N
                     (if seen then S frac else frac) true Hs).
      destruct (FloatOfStr.scan s seen _ _ true) as [[[m f] a]|];
        [|exact IH].
      destruct IH as [H1 ->]. split; [exact H1|].
      simpl. rewrite orb_true_r. reflexivity.
    + unfold is_num in Hc. rewrite Hd in Hc. simpl in Hc. rewrite Hc.
      apply N.eqb_eq in Hc. destruct (N.eq_dec c 46) as [_|E]; [|congruence].
      destruct seen.
      * simpl. lia.
      * specialize (IH true mant frac any Hs).
        destruct (FloatOfStr.scan s true mant frac any) as [[[m f] a]|].
        -- destruct IH as [H1 ->]. simpl in *. split; [lia|reflexivity].
        -- simpl in *. lia.
Qed.

Lemma float_of_num_none s :
  forallb is_num s = true ->
  (FloatOfStr.float_of_str s = None <->
   2 <= count_points s \/ existsb is_digit s = false).
Proof.
  intros Hs.
  assert (Hu : FloatOfStr.float_of_str s = FloatOfStr.unsigned s).
  { destruct s as [|c s]; [reflexivity|]. simpl in Hs.
    apply andb_prop in Hs as [Hc _].
    unfold is_num, is_digit in Hc. unfold FloatOfStr.float_of_str.
    destruct (N.eqb_spec c 45) as [->|_]; [discriminate|].
    destruct (N.eqb_spec c 43) as [->|_]; [discriminate|]. reflexivity. }
  rewrite Hu. unfold FloatOfStr.unsigned.
  pose proof (scan_spec s false 0 0 false Hs) as H.
  destruct (FloatOfStr.scan s false 0 0 false) as [[[m f] a]|].
  - destruct H as [H1 ->]. simpl in *.
    destruct (existsb is_digit s); split; try discriminate; auto.
    intros [H|H]; [lia|discriminate].
  - simpl in H. split; auto.
Qed.

Section RejectFacts.

Variable is_word : char -> bool.
Variable is_space : char -> bool.

(** X7: the pattern admits magnitudes that are not numbers.  A tuple of
    [re.findall] is skipped for a failed conversion exactly when its mean
    holds two or more points or no digit at all; such a tuple stores
    nothing and does not stop the loop. *)
Theorem measure_parse_failed content m :
  In m (findall (pattern is_word is_space) content) ->
  (measure m = ParseFailed <->
   2 <= count_points (group 3 m) \/ existsb is_digit (group 3 m) = false)
  /\
  (measure m = ParseFailed ->
   forall bench rest b,
     store_matches bench (m :: rest) b = store_matches bench rest b).
Proof.
  intros Hin. destruct (findall_groups _ _ _ _ Hin) as [_ Hnum].
  split.
  - rewrite <- (float_of_num_none _ Hnum). unfold measure.
    destruct (FloatOfStr.float_of_str (group 3 m)) as [v|];
      [|split; reflexivity].
    destruct (Float.ltb v (Float.of_Z 0));
      [split; discriminate|].
    destruct (to_nanoseconds v (group 4 m)); split; discriminate.
  - intros H bench rest b. simpl. rewrite H. reflexivity.
Qed.

End RejectFacts.

Lemma measure_parse_failed_witness :
  measure [lit "f"; lit "1"; lit "ns"; lit "1.2.3"; lit "ns"; lit "3"; lit "ns"]
    = ParseFailed.
Proof.
  apply (proj1 (@measure_parse_failed ascii_word ascii_space
                  (lit "f time: [1 ns 1.2.3 ns 3 ns]") _
                  (or_introl eq_refl))).
  left. vm_compute. lia.
Defined.

(** ** The order of the directory listing *)

Section ListingOrder.

Variable A : Type.

Implicit Types (l : list (str * A)) (e : str * A).

Lemma insert_perm e l : Permutation (insert e l) (e :: l).
Proof.
  induction l as [|e' l IH]; simpl; [reflexivity|].
  destruct (Str.ltb (fst e) (fst e')); [reflexivity|].
  rewrite IH. apply perm_swap.
Qed.

Lemma sorted_perm l : Permutation (sorted l) l.
Proof.
  unfold sorted. induction l as [|e l IH]; simpl; [reflexivity|].
  rewrite insert_perm. constructor. exact IH.
Qed.

Lemma filter_perm (f : str * A -> bool) l l' :
  Permutation l l' -> Permutation (filter f l) (filter f l').
Proof.
  induction 1 as [|x l l' H IH|x y l|l l' l'' H1 IH1 H2 IH2]; simpl.
  - reflexivity.
  - destruct (f x); [constructor|]; exact IH.
  - destruct (f x), (f y); try reflexivity. apply perm_swap.
  - rewrite IH1. exact IH2.
Qed.

Lemma filter_keys_NoDup (f : str * A -> bool) l :
  NoDup (keys l) -> NoDup (keys (filter f l)).
Proof.
  induction l as [|e l IH]; simpl; [auto|].
  intros H. inversion H as [|k ks Hnotin Hnd]. subst.
  destruct (f e); [|auto]. simpl. constructor; [|auto].
  intros Hin. apply Hnotin. unfold keys in *.
  apply in_map_iff in Hin as (x & Hx & Hin). apply filter_In in Hin as [Hin _].
  apply in_map_iff. eauto.
Qed.

Lemma key_le_antisym e1 e2 :
  DictFacts.key_le e1 e2 -> DictFacts.key_le e2 e1 -> fst e1 = fst e2.
Proof.
  unfold DictFacts.key_le, Str.leb. rewrite !negb_true_iff.
  intros H1 H2. apply StrFacts.ltb_total; assumption.
Qed.

(** Two sorted lists with the same entries and distinct keys are the
    same list. *)
Lemma sorted_unique l1 : forall l2,
  StronglySorted (@DictFacts.key_le A) l1 ->
  StronglySorted (@DictFacts.key_le A) l2 ->
  Permutation l1 l2 -> NoDup (keys l1) -> l1 = l2.
Proof.
  induction l1 as [|a t1 IH]; intros l2 Hs1 Hs2 Hp Hnd.
  - apply Permutation_nil in Hp. congruence.
  - destruct l2 as [|b t2].
    { apply Permutation_sym, Permutation_nil in Hp. discriminate. }
    inversion Hs1 as [|? ? Hs1' Hall1]. inversion Hs2 as [|? ? Hs2' Hall2].
    inversion Hnd as [|? ? Hnotin Hnd']. subst.
    assert (Hab : a = b).
    { assert (Ha : In a (b :: t2))
        by (eapply Permutation_in; [exact Hp|simpl; auto]).
      assert (Hb : In b (a :: t1))
        by (eapply Permutation_in;
            [apply Permutation_sym; exact Hp|simpl; auto]).
      destruct Ha as [Ha|Ha]; [congruence|].
      destruct Hb as [Hb|Hb]; [congruence|].
      rewrite Forall_forall in Hall1, Hall2.
      pose proof (key_le_antisym (Hall1 _ Hb) (Hall2 _ Ha)) as Hk.
      exfalso. apply Hnotin. rewrite Hk. unfold keys.
      apply in_map. exact Hb. }
    subst b. f_equal. apply IH; try assumption.
    eapply Permutation_cons_inv. exact Hp.
Qed.

Lemma sorted_listing_order (f : str * A -> bool) l l' :
  Permutation l l' -> NoDup (keys l) ->
  sorted (filter f l) = sorted (filter f l').
Proof.
  intros Hp Hnd. apply sorted_unique.
  - apply DictFacts.sorted_sorted.
  - apply DictFacts.sorted_sorted.
  - rewrite !sorted_perm. apply filter_perm, Hp.
  - unfold keys. eapply Permutation_NoDup.
    + apply Permutation_map, Permutation_sym, sorted_perm.
    + apply filter_keys_NoDup, Hnd.
Qed.

End ListingOrder.

Section Tables.

Variable is_word : char -> bool.
Variable is_space : char -> bool.
Variable datetime : Type.
Variable strptime : str -> option datetime.

Local Abbreviation parse := (parse_benchmark_results is_word is_space strptime).

(** X10: the order in which the system lists the results directory does
    not matter: two listings of the same entries, with distinct names, give
    the same sequence of runs. *)
Theorem parse_listing_order entries1 entries2 :
  Permutation entries1 entries2 ->
  NoDup (keys entries1) ->
  parse (Some entries1) = parse (Some entries2).
Proof.
  intros Hp Hnd. simpl. unfold timestamp_dirs, glob_star.
  rewrite (sorted_listing_order _ Hp Hnd). reflexivity.
Qed.

Lemma last_run_app (older : list (run datetime)) l :
  last_run (older ++ [l]) = Some l.
Proof. unfold last_run. rewrite rev_app_distr. reflexivity. Qed.

Lemma previous_run_app (older : list (run datetime)) p l :
  previous_run (older ++ [p; l]) = Some p.
Proof. unfold previous_run. rewrite rev_app_distr. reflexivity. Qed.

(** X11: only the last run enters the latest results table and only the
    last two runs enter the comparison table: older runs never change
    either. *)
Theorem tables_use_last_runs (older : list (run datetime)) p l :
  latest_html (older ++ [l]) = latest_html [l] /\
  comparison_html (older ++ [p; l]) = comparison_html [p; l].
Proof.
  split.
  - unfold latest_html. rewrite last_run_app. reflexivity.
  - unfold comparison_html.
    rewrite previous_run_app.
    change (older ++ [p; l]) with (older ++ [p] ++ [l]).
    rewrite app_assoc, last_run_app. reflexivity.
Qed.

(** X12: the comparison section is the placeholder "Need at least 2 runs
    for comparison" exactly when fewer than two runs are stored; with two
    or more it is a table. *)
Theorem comparison_placeholder (results : list (run datetime)) :
  comparison_html results
    = Some (lit "<p>Need at least 2 runs for comparison</p>")
  <-> List.length results < 2.
Proof.
  unfold comparison_html, last_run, previous_run.
  rewrite <- (length_rev results).
  destruct (rev results) as [|l [|p rest]]; simpl.
  - split; [lia|reflexivity].
  - split; [lia|reflexivity].
  - destruct (comparison_rows_spec (benchmarks l) (benchmarks p))
      as (rows & -> & _).
    split; [|lia]. intros H. injection H as H. discriminate H.
Qed.

End Tables.

Lemma parse_listing_order_witness :
  parse_benchmark_results ascii_word ascii_space stamp (Some sample_results)
  = parse_benchmark_results ascii_word ascii_space stamp
      (Some (rev sample_results)).
Proof.
  apply (@parse_listing_order ascii_word ascii_space str stamp).
  - apply Permutation_rev.
  - repeat constructor; simpl; intros H;
      repeat (destruct H as [H|H]; [discriminate H|]); exact H.
Defined.

(** ** Charts in the document *)

(** X13: the document only refers to charts of the seven suites named in
    the source: an image written for any other suite changes nothing in the
    charts section. *)
Theorem charts_html_other_suite suite f fs :
  ~ In suite chart_suites ->
  charts_html (set (chart_name suite) f fs) = charts_html fs.
Proof.
  intros Hnot. unfold charts_html. f_equal. apply map_ext_in.
  intros s Hs. unfold mem.
  rewrite DictFacts.get_set_other; [reflexivity|].
  intros E. apply chart_name_inj in E. subst s. exact (Hnot Hs).
Qed.

Lemma charts_html_other_suite_witness :
  charts_html [(chart_name (lit "runtime"), Png)] = [].
Proof.
  apply (@charts_html_other_suite (lit "runtime") Png []).
  vm_compute. intros H.
  repeat (destruct H as [H|H]; [discriminate H|]). exact H.
Defined.

(** ** Charts for the parsed runs *)

Section FoldFacts.

Variables S X : Type.

(** An invariant kept by every step of a loop holds after the loop. *)
Lemma fold_left_invariant (I : S -> Prop) (f : S -> X -> S) l :
  forall a,
    (forall x acc, In x l -> I acc -> I (f acc x)) ->
    I a -> I (fold_left f l a).
Proof.
  induction l as [|x l IH]; intros a Hstep Ha; simpl; [exact Ha|].
  apply IH.
  - intros y acc Hy. apply Hstep. simpl. auto.
  - apply Hstep; simpl; auto.
Qed.

End FoldFacts.

Section UniqueKeys.

Variable A : Type.

Implicit Types (d : dict A).

Lemma set_keys_NoDup k (v : A) d : NoDup (keys d) -> NoDup (keys (set k v d)).
Proof.
  induction d as [|[k0 v0] d IH]; simpl; intros H.
  - repeat constructor. simpl. tauto.
  - inversion H as [|? ? Hnotin Hnd]. subst.
    destruct (Str.eqb k k0) eqn:E; simpl.
    + apply StrFacts.eqb_eq in E. subst k0. constructor; assumption.
    + constructor; [|auto]. intros Hin.
      apply keys_set in Hin as [Hin|Hin]; [|auto].
      apply StrFacts.eqb_neq in E. congruence.
Qed.

(** With distinct keys, an entry of a dictionary is what a subscript
    returns. *)
Lemma get_In k (v : A) d : NoDup (keys d) -> In (k, v) d -> get k d = Some v.
Proof.
  induction d as [|[k0 v0] d IH]; simpl; intros Hnd Hin; [destruct Hin|].
  inversion Hnd as [|? ? Hnotin Hnd']. subst.
  destruct Hin as [E|Hin].
  - injection E as -> ->. rewrite StrFacts.eqb_refl. reflexivity.
  - destruct (Str.eqb k k0) eqn:E; [|auto].
    apply StrFacts.eqb_eq in E. subst k0. exfalso. apply Hnotin.
    unfold keys. apply in_map_iff. exists (k, v). auto.
Qed.

Lemma get_Forall_entry (P : str * A -> Prop) k d v :
  Forall P d -> get k d = Some v -> P (k, v).
Proof.
  induction 1 as [|[k' v'] d Hx Hd IH]; simpl; [discriminate|].
  destruct (Str.eqb k k') eqn:E; [|exact IH].
  apply StrFacts.eqb_eq in E. subst k'.
  intros E. injection E as <-. exact Hx.
Qed.

End UniqueKeys.

Section ChartsComplete.

Variable is_word : char -> bool.
Variable is_space : char -> bool.
Variable datetime : Type.
Variable strptime : str -> option datetime.

Local Abbreviation parse := (parse_benchmark_results is_word is_space strptime).

Implicit Types (results : list (run datetime)).

(** A run as the parser builds it: no suite twice, no suite without a
    test. *)
Let run_ok (r : run datetime) : Prop :=
  NoDup (keys (benchmarks r)) /\ suites_nonempty (benchmarks r).

Lemma store_keys_NoDup bench test v (b : dict (dict Float.float)) :
  NoDup (keys b) -> NoDup (keys (store bench test v b)).
Proof. unfold store. apply set_keys_NoDup. Qed.

Lemma parse_files_keys_NoDup files : forall b,
  NoDup (keys b) ->
  NoDup (keys (fold_left (parse_file is_word is_space) files b)).
Proof.
  intros b Hb. apply fold_left_invariant; [|exact Hb].
  intros f acc _ Hacc. unfold parse_file.
  destruct (snd f) as [content|]; [|exact Hacc].
  destruct (forallb is_space content); [exact Hacc|].
  destruct (findall (pattern is_word is_space) content) as [|m ms];
    [exact Hacc|].
  generalize (m :: ms). intros matches. revert acc Hacc.
  induction matches as [|m' rest IH]; intros acc Hacc; simpl; [exact Hacc|].
  apply IH. destruct (measure m'); auto using store_keys_NoDup.
Qed.

Lemma parse_runs_ok root : Forall run_ok (parse root).
Proof.
  destruct root as [entries|]; simpl; [|constructor].
  generalize (timestamp_dirs entries). intros ds.
  induction ds as [|[name n] ds IH]; simpl; [constructor|].
  destruct (parse_run is_word is_space strptime name n) as [r|] eqn:Hr;
    [|exact IH].
  constructor; [|exact IH]. split.
  - revert Hr. unfold parse_run. destruct n as [|files]; [discriminate|].
    destruct (strptime name) as [dt|]; [|discriminate].
    destruct (glob_txt files) as [|f fs]; [discriminate|].
    pose proof (@parse_files_keys_NoDup (f :: fs) [] (NoDup_nil _)) as Hb.
    destruct (fold_left (parse_file is_word is_space) (f :: fs) [])
      as [|st b]; [discriminate|].
    intros E. injection E as <-. exact Hb.
  - apply (parse_run_some _ _ _ _ _ Hr).
Qed.

(** What grouping keeps true of every grouped suite: it has a test, and
    each of its tests is found in some run. *)
Let grouped_ok results (st : str * dict (list Float.float)) : Prop :=
  snd st <> [] /\
  forall test, In test (keys (snd st)) ->
    exists r, In r results /\ has_test (fst st) test r = true.

Lemma add_time_ok results suite test time b r :
  In r results -> has_test suite test r = true ->
  Forall (grouped_ok results) b ->
  Forall (grouped_ok results) (add_time suite test time b).
Proof.
  intros Hr Ht Hb. unfold add_time. apply DictFacts.set_Forall; [|exact Hb].
  split; simpl; [apply DictFacts.set_not_empty|].
  intros t Hin. apply keys_set in Hin as [->|Hin]; [eauto|].
  destruct (get suite b) as [tests|] eqn:Hg; [|destruct Hin].
  destruct (@get_Forall_entry _ (grouped_ok results) _ _ _ Hb Hg) as [_ H].
  apply H. exact Hin.
Qed.

Lemma add_time_keys suite test time (b : dict (dict (list Float.float))) s :
  In s (keys (add_time suite test time b)) <-> s = suite \/ In s (keys b).
Proof. unfold add_time. apply keys_set. Qed.

Lemma has_test_entry (r : run datetime) suite tests test time :
  NoDup (keys (benchmarks r)) ->
  In (suite, tests) (benchmarks r) -> In (test, time) tests ->
  has_test suite test r = true.
Proof.
  intros Hnd Hs Ht. unfold has_test. rewrite (@get_In _ _ _ _ Hnd Hs).
  apply DictFacts.mem_keys. unfold keys. apply in_map_iff.
  exists (test, time). auto.
Qed.

(** Grouping keeps every suite of every run, and every grouped suite has
    data. *)
Lemma group_by_suite_ok results :
  Forall run_ok results ->
  Forall (grouped_ok results) (group_by_suite results) /\
  forall r suite, In r results -> In suite (keys (benchmarks r)) ->
                  In suite (keys (group_by_suite results)).
Proof.
  intros Hok. unfold group_by_suite.
  set (I := fun (seen : list (run datetime)) (b : dict (dict (list Float.float))) =>
              Forall (grouped_ok results) b /\
              forall r suite, In r seen -> In suite (keys (benchmarks r)) ->
                              In suite (keys b)).
  assert (H : forall rs seen b,
             (forall r, In r rs -> In r results) ->
             I seen b ->
             I (rev rs ++ seen)
               (fold_left
                  (fun b (r : run datetime) =>
                     fold_left
                       (fun b st =>
                          fold_left
                            (fun b tt =>
                               add_time (fst st) (fst tt) (snd tt) b)
                            (snd st) b)
                       (benchmarks r) b)
                  rs b)).
  { induction rs as [|r rs IH]; intros seen b Hin Hb; simpl; [exact Hb|].
    rewrite <- app_assoc. simpl. apply IH; [intros; apply Hin; simpl; auto|].
    assert (Hr : In r results) by (apply Hin; simpl; auto).
    rewrite Forall_forall in Hok. destruct (Hok r Hr) as [Hnd Hne].
    (* the suites of [r], one by one *)
    assert (Hs : forall sts b0,
               (forall st, In st sts -> In st (benchmarks r)) ->
               Forall (grouped_ok results) b0 ->
               let b1 :=
                 fold_left
                   (fun b1 (st : str * dict Float.float) =>
                      fold_left
                        (fun b2 tt => add_time (fst st) (fst tt) (snd tt) b2)
                        (snd st) b1)
                   sts b0 in
               Forall (grouped_ok results) b1 /\
               (forall s, In s (keys b0) -> In s (keys b1)) /\
               (forall s, In s (keys sts) -> In s (keys b1))).
    { induction sts as [|st sts IHs]; intros b0 Hsts Hb0; simpl; [tauto|].
      assert (Hst : In st (benchmarks r)) by (apply Hsts; simpl; auto).
      assert (Htests : snd st <> []).
      { unfold suites_nonempty in Hne. rewrite Forall_forall in Hne. auto. }
      (* the tests of the suite *)
      assert (Ht : forall tts b1,
                 (forall tt, In tt tts -> In tt (snd st)) ->
                 Forall (grouped_ok results) b1 ->
                 let b2 :=
                   fold_left
                     (fun b2 (tt : str * Float.float) =>
                        add_time (fst st) (fst tt) (snd tt) b2)
                     tts b1 in
                 Forall (grouped_ok results) b2 /\
                 (forall s, In s (keys b1) -> In s (keys b2)) /\
                 (tts <> [] -> In (fst st) (keys b2))).
      { induction tts as [|tt tts IHt]; intros b1 Htts Hb1; simpl;
          [tauto|].
        assert (Htt : In tt (snd st)) by (apply Htts; simpl; auto).
        destruct (IHt (add_time (fst st) (fst tt) (snd tt) b1))
          as (H1 & H2 & H3).
        - intros; apply Htts; simpl; auto.
        - eapply add_time_ok; [exact Hr| |exact Hb1].
          destruct st as [suite tests], tt as [test time]. simpl in *.
          eapply has_test_entry; eassumption.
        - split; [exact H1|]. split.
          + intros s Hs. apply H2, add_time_keys. auto.
          + intros _. apply H2, add_time_keys. auto. }
      destruct (Ht (snd st) b0 (fun _ H => H) Hb0) as (H1 & H2 & H3).
      match goal with
      | |- context [fold_left _ sts ?b1] =>
          destruct (IHs b1) as (G1 & G2 & G3);
            [intros; apply Hsts; simpl; auto|exact H1|]
      end.
      split; [exact G1|]. split.
      - intros s Hs. apply G2, H2, Hs.
      - intros s [<-|Hs]; [apply G2, H3, Htests|apply G3, Hs]. }
    destruct (Hs (benchmarks r) b (fun _ H => H) (proj1 Hb)) as (G1 & G2 & G3).
    split; [exact G1|].
    intros r' suite [<-|Hr'] Hsuite; [apply G3, Hsuite|].
    apply G2. eapply (proj2 Hb); eassumption. }
  destruct (H results [] [] (fun _ H => H)) as [H1 H2].
  { split; [constructor|]. intros r suite []. }
  split; [exact H1|]. intros r suite Hr. apply H2.
  rewrite app_nil_r. apply in_rev in Hr. exact Hr.
Qed.

Lemma has_data_grouped results st :
  grouped_ok results st -> has_data results (fst st) (keys (snd st)) = true.
Proof.
  intros [Hne H]. unfold has_data.
  destruct (snd st) as [|[test times] tests]; [congruence|].
  simpl. destruct (H test (or_introl eq_refl)) as (r & Hr & Ht).
  apply orb_true_iff. left. apply existsb_exists. eauto.
Qed.

(** X16: for the runs parsed from any results directory, every suite
    grouped for plotting has data, so the branch that warns "No data found"
    is never taken; and when the plotting backend is available, the
    directory can be made and no plot fails, [generate_charts] leaves an
    image [<suite>_performance.png] for every suite of every run. *)
Theorem charts_for_every_suite root w :
  (forall st, In st (group_by_suite (parse root)) ->
     has_data (parse root) (fst st) (keys (snd st)) = true)
  /\
  (matplotlib_available w = true -> makedirs_ok w = true ->
   (forall suite, savefig_ok w suite = true) ->
   forall r suite,
     In r (parse root) -> mem suite (benchmarks r) = true ->
     get (chart_name suite)
         (output_files (generate_charts (parse root) w)) = Some Png).
Proof.
  destruct (group_by_suite_ok (parse_runs_ok root)) as [Hall Hkeys].
  rewrite Forall_forall in Hall.
  assert (Hdata : forall st, In st (group_by_suite (parse root)) ->
            has_data (parse root) (fst st) (keys (snd st)) = true).
  { intros st Hst. apply has_data_grouped, Hall, Hst. }
  split; [exact Hdata|].
  intros Hm Hk Hsave r suite Hr Hsuite.
  apply DictFacts.mem_keys in Hsuite.
  pose proof (Hkeys r suite Hr Hsuite) as Hin.
  unfold generate_charts. rewrite Hm, Hk. simpl.
  revert Hdata Hin. generalize (group_by_suite (parse root)). intros sts.
  assert (H : forall sts0 w0,
             (forall s, savefig_ok w0 s = true) ->
             (forall st, In st sts0 ->
                has_data (parse root) (fst st) (keys (snd st)) = true) ->
             get (chart_name suite) (output_files w0) = Some Png \/
             In suite (keys sts0) ->
             get (chart_name suite)
                 (output_files
                    (fold_left
                       (fun w1 (st : str * dict (list Float.float)) =>
                          if (has_data (parse root) (fst st) (keys (snd st))
                              && savefig_ok w1 (fst st))%bool
                          then set_files (set (chart_name (fst st)) Png
                                              (output_files w1)) w1
                          else w1) sts0 w0))
               = Some Png).
  { induction sts0 as [|st sts0 IH]; intros w0 Hs0 Hd0 Hcase; simpl.
    - destruct Hcase as [Hg|[]]. exact Hg.
    - rewrite (Hd0 st (or_introl eq_refl)), Hs0. simpl. apply IH.
      + intros s. simpl. apply Hs0.
      + intros st' Hst'. apply Hd0. simpl. auto.
      + simpl.
        destruct (list_eq_dec N.eq_dec (chart_name suite)
                    (chart_name (fst st))) as [E|Hne].
        * left. rewrite E. apply DictFacts.get_set_same.
        * destruct Hcase as [Hg|[Hs|Hs]].
          -- left. rewrite DictFacts.get_set_other by exact Hne. exact Hg.
          -- subst suite. congruence.
          -- right. exact Hs. }
  intros Hdata Hin. apply H; auto.
Qed.

End ChartsComplete.

Lemma charts_for_every_suite_witness :
  get (chart_name (lit "lexer"))
      (output_files
         (generate_charts
            (parse_benchmark_results ascii_word ascii_space stamp
               (Some sample_results))
            later_world))
    = Some Png.
Proof.
  apply (proj2 (@charts_for_every_suite ascii_word ascii_space str stamp
                  (Some sample_results) later_world) eq_refl eq_refl
           (fun _ => eq_refl)
           {| timestamp := lit "20240102_000000";
              benchmarks :=
                [(lit "parser",
                  [(lit "parse_expr",
                    S754_finite false 6184752906240000 (-35));
                   (lit "new_test", S754_finite false 4503599627370496 (-51))]);
                 (lit "lexer",
                  [(lit "tokenize",
                    S754_finite false 6442450944000000 (-29))])] |}).
  - vm_compute. right. left. reflexivity.
  - reflexivity.
Defined.

(** ** Rows classed as regressions *)

Lemma above_five_above_epsilon chg :
  Float.ltb (Float.of_Z 5) chg = true ->
  Float.ltb epsilon (Float.abs chg) = true /\
  exists rest, Float.format_f true 1 chg = 43%N :: rest.
Proof.
  change (Float.of_Z 5) with (S754_finite false 5629499534213120 (-50)).
  change epsilon with (S754_finite false 7205759403792794 (-56)).
  unfold Float.ltb, SFltb.
  destruct chg as [[|]|[|]| |[|] m e];
    cbn -[Z.compare Pos.compare_cont]; try discriminate.
  - intros _. split; [reflexivity|]. eexists. reflexivity.
  - intros H. split; [|eexists; reflexivity].
    assert (He : (-50 <= e)%Z).
    { destruct (-50 ?= e)%Z eqn:E; try discriminate H.
      - apply Z.compare_eq in E. lia.
      - apply -> Z.compare_lt_iff in E. lia. }
    assert (E : (-56 ?= e)%Z = Lt) by (apply Z.compare_lt_iff; lia).
    rewrite E. reflexivity.
Qed.

(** X17: a row classed as a regression always shows a percentage: for a
    pair whose previous value is not zero and whose class is "regression",
    the change cell is the change formatted with [+.1f] followed by "%", it
    starts with a plus sign, and it is never "~". *)
Theorem regression_cell suite test (p c : Float.float) r :
  Float.eqb p (Float.of_Z 0) = false ->
  compare suite test p c = Some r ->
  change_class r = lit "regression" ->
  change_str r = Float.format_f true 1 (change r) ++ lit "%" /\
  (exists rest, change_str r = 43%N :: rest) /\
  change_str r <> lit "~".
Proof.
  intros Hp Hr Hclass.
  destruct (compare_nonzero _ _ _ _ Hp Hr) as (q & _ & _ & Hs & Hc).
  rewrite Hc in Hclass. unfold class_of_change in Hclass.
  destruct (Float.ltb (change r) (Float.of_Z 0)); [discriminate|].
  destruct (Float.ltb (Float.of_Z 5) (change r)) eqn:H5; [|discriminate].
  destruct (above_five_above_epsilon _ H5) as (Hgt & rest & Hrest).
  rewrite Hgt in Hs. rewrite Hs, Hrest. simpl.
  split; [reflexivity|]. split; [eauto|].
  intros E. injection E as E _. discriminate.
Qed.

Lemma regression_cell_witness :
  exists r,
    compare (lit "parser") (lit "parse_expr")
            (Float.of_Z 100) (Float.of_Z 110) = Some r /\
    change_str r = lit "+10.0%".
Proof.
  eexists. split; [reflexivity|].
  rewrite (proj1 (@regression_cell (lit "parser") (lit "parse_expr")
                    (Float.of_Z 100) (Float.of_Z 110) _
                    eq_refl eq_refl eq_refl)).
  reflexivity.
Defined.

(** ** Names of the benchmark files *)

Lemma startswith_app p : forall s,
  startswith p s = true -> exists rest, s = p ++ rest.
Proof.
  induction p as [|x p IH]; intros s; simpl.
  - exists s. reflexivity.
  - destruct s as [|y s]; [discriminate|].
    intros H. apply andb_prop in H as [Hx Hp]. apply N.eqb_eq in Hx. subst y.
    destruct (IH s Hp) as [rest ->]. exists rest. reflexivity.
Qed.

Lemma endswith_app p s :
  endswith p s = true -> exists base, s = base ++ p.
Proof.
  unfold endswith. intros H. apply startswith_app in H as [rest Hrest].
  exists (rev rest). rewrite <- (rev_involutive s), Hrest, rev_app_distr.
  rewrite rev_involutive. reflexivity.
Qed.

(** X18: every file that [parse_run] reads is named [<suite>.txt] for the
    suite it is stored under, and its name does not start with a dot; such a
    name is one of the directory's. *)
Theorem bench_files_named (files : list (str * option str)) f :
  In f (glob_txt files) ->
  fst f = stem (fst f) ++ lit ".txt" /\
  startswith (lit ".") (fst f) = false /\
  In f files.
Proof.
  unfold glob_txt, glob_star. intros H.
  apply (proj1 (filter_In _ _ _)) in H as [H Hend].
  apply (proj1 (filter_In _ _ _)) in H as [Hin Hdot].
  apply negb_true_iff in Hdot. split; [|auto].
  apply endswith_app in Hend as [base Hb]. unfold stem. rewrite Hb at 1.
  f_equal. rewrite Hb, length_app. simpl List.length at 2.
  rewrite Nat.add_sub, firstn_app, Nat.sub_diag, firstn_all. simpl.
  rewrite app_nil_r. reflexivity.
Qed.

Lemma bench_files_named_witness :
  lit "parser.txt" = stem (lit "parser.txt") ++ lit ".txt".
Proof.
  apply (proj1 (@bench_files_named
                  [(lit "parser.txt", None); (lit "notes.md", None)]
                  (lit "parser.txt", None) (or_introl eq_refl))).
Defined.
